(** * telegram-backup-bot: the filename builder and the message handler of
    [bot.py], embedded in Rocq, and the properties of the specification
    proved or refuted on the embedding. *)

From Stdlib Require Import ZArith List Bool Lia.
From Stdlib Require Import Strings.Ascii Strings.String Numbers.DecimalString.
From Stdlib Require DecimalZ DecimalPos.
Import ListNotations.

Open Scope string_scope.
Open Scope Z_scope.

(** ** Python values used by [bot.py] *)

(** A Python [str] is kept as its UTF-8 text.  The only characters the code
    looks for are ["."], [" "] and ["_"], which never occur inside a
    multi-byte sequence, so searching and stripping on the text agree with
    Python's code-point operations. *)
Definition pystr := string.

Module Py.

(** Truth value of a [str]: the empty string is false. *)
Definition truthy (s : pystr) : bool :=
  match s with "" => false | String _ _ => true end.

(** Truth value of [str | None]: [None] and [""] are false. *)
Definition truthy_opt (o : option pystr) : bool :=
  match o with None => false | Some s => truthy s end.

(** [a or b] on [str | None]. *)
Definition or_else (a b : option pystr) : option pystr :=
  if truthy_opt a then a else b.

(** ["{n}"] for an [int]: the decimal numeral, with ["-"] when negative. *)
Definition str_of_int (n : Z) : pystr :=
  NilZero.string_of_int (Z.to_int n).

(** [c in s] for a one-character needle. *)
Fixpoint contains (c : ascii) (s : pystr) : bool :=
  match s with
  | "" => false
  | String a r => Ascii.eqb a c || contains c r
  end.

(** The split of [s] at its last [c], if there is one. *)
Fixpoint rsplit_once (c : ascii) (s : pystr) : option (pystr * pystr) :=
  match s with
  | "" => None
  | String a r =>
      match rsplit_once c r with
      | Some (hd, tl) => Some (String a hd, tl)
      | None => if Ascii.eqb a c then Some ("", r) else None
      end
  end.

(** [s.rsplit(c, 1)]: at most one split, made at the rightmost [c]. *)
Definition rsplit1 (c : ascii) (s : pystr) : list pystr :=
  match rsplit_once c s with
  | Some (hd, tl) => [hd; tl]
  | None => [s]
  end.

(** [l[-1]]; [None] stands for the [IndexError] of an empty sequence. *)
Definition last_item {A : Type} (l : list A) : option A :=
  match rev l with
  | [] => None
  | x :: _ => Some x
  end.

(** [s.lstrip(c)], [s.rstrip(c)] and [s.strip(c)] for a one-character
    set: [strip] removes the character at both ends. *)
Fixpoint lstrip (c : ascii) (s : pystr) : pystr :=
  match s with
  | "" => ""
  | String a r => if Ascii.eqb a c then lstrip c r else s
  end.

Fixpoint rstrip (c : ascii) (s : pystr) : pystr :=
  match s with
  | "" => ""
  | String a r =>
      match rstrip c r with
      | "" => if Ascii.eqb a c then "" else String a ""
      | r' => String a r'
      end
  end.

Definition strip (c : ascii) (s : pystr) : pystr := rstrip c (lstrip c s).

(** [sep.join(parts)]. *)
Definition join (sep : pystr) (parts : list pystr) : pystr :=
  String.concat sep parts.

(** [n] copies of the character [c]. *)
Fixpoint replicate (n : nat) (c : ascii) : pystr :=
  match n with
  | O => ""
  | S k => String c (replicate k c)
  end.

(** [str.lower] on ASCII text: [A]..[Z] go to [a]..[z], every other
    character stays. *)
Definition lower_char (a : ascii) : ascii :=
  let n := nat_of_ascii a in
  if (Nat.leb 65 n && Nat.leb n 90)%bool then ascii_of_nat (n + 32) else a.

Fixpoint ascii_lower (s : pystr) : pystr :=
  match s with
  | "" => ""
  | String a r => String (lower_char a) (ascii_lower r)
  end.

End Py.

Definition dot : ascii := "."%char.

(** ** Helpers of [bot.py] *)

(** [safe_full_name(first, last)]: the truthy members of [[first, last]],
    joined by one space. *)
Definition safe_full_name (first last : option pystr) : pystr :=
  let parts :=
    flat_map (fun p => match p with
                       | Some s => if Py.truthy s then [s] else []
                       | None => []
                       end) [first; last] in
  Py.join " " parts.

(** The two attributes of [telegram.File] that [file_basename] reads. *)
Record File := mkFile {
  file_path : option pystr;
  file_unique_id : pystr
}.

Section FilenameBuilder.

(** [str.lower].  Its Unicode case tables belong to the interpreter, so
    the function is a parameter here; [Py.ascii_lower] is its restriction
    to ASCII text. *)
Variable lower : pystr -> pystr.

(** Lines 82-84 of [file_basename]: the extension read off Telegram's
    [file_path], [None] while nothing was assigned. *)
Definition path_ext (tg_file : File) : option pystr :=
  match file_path tg_file with
  | Some p =>
      if (Py.truthy p && Py.contains dot p)%bool
      then option_map lower (Py.last_item (Py.rsplit1 dot p))
      else None
  | None => None
  end.

(** Lines 82-86: the value of [ext] when the suffix is built. *)
Definition resolved_ext (tg_file : File) (explicit_ext : option pystr)
  : option pystr :=
  let ext := path_ext tg_file in
  if (negb (Py.truthy_opt ext) && Py.truthy_opt explicit_ext)%bool
  then option_map (fun e => lower (Py.strip dot e)) explicit_ext
  else ext.

(** Line 87: [f".{ext}" if ext else ""]. *)
Definition suffix_of (ext : option pystr) : pystr :=
  match ext with
  | Some e => if Py.truthy e then "." ++ e else ""
  | None => ""
  end.

(** [file_basename(chat_id, message_id, tg_file, explicit_ext)]. *)
Definition file_basename (chat_id message_id : Z) (tg_file : File)
           (explicit_ext : option pystr) : pystr :=
  let ext := resolved_ext tg_file explicit_ext in
  let suffix := suffix_of ext in
  Py.str_of_int chat_id ++ "_" ++ Py.str_of_int message_id ++ "_"
    ++ file_unique_id tg_file ++ suffix.

End FilenameBuilder.

(** ** Telegram objects read by the handler *)

(** [PhotoSize], [Video], [Document], [Voice], [Audio], [Animation] and
    [Sticker]: the handler only calls [get_file()] on them, which asks the
    platform for the file behind [file_id]. *)
Record Medium := mkMedium { file_id : pystr }.

Record User := mkUser {
  user_id : Z;
  username : option pystr;
  first_name : option pystr;
  last_name : option pystr
}.

Record Chat := mkChat {
  chat_id : Z;
  chat_type : pystr
}.

#[warnings="-register-all"]
Inductive TgMessage := mkTgMessage {
  chat : Chat;
  from_user : option User;
  text : option pystr;
  caption : option pystr;
  date : Z;
  message_id : Z;
  reply_to_message : option TgMessage;
  photo : list Medium;
  video : option Medium;
  document : option Medium;
  voice : option Medium;
  audio : option Medium;
  animation : option Medium;
  sticker : option Medium
}.

Record Update := mkUpdate { effective_message : option TgMessage }.

(** ** The two tables *)

(** The rows carry the columns the handler fills in; the primary key [id]
    is assigned by the database and is the position of the row in its
    table. *)
Module Message.
Record t := mk {
  chat_id : Z;
  user_id : option Z;
  username : option pystr;
  full_name : pystr;
  text : option pystr;
  date : Z;
  message_id : Z;
  reply_to_message_id : option Z;
  chat_type : pystr;
  is_group : bool
}.
End Message.

Module Media.
Record t := mk {
  message_id : Z;
  chat_id : Z;
  media_type : pystr;
  file_name : pystr;
  file_path : pystr
}.
End Media.

(** Committed contents of the database. *)
Record Store := mkStore {
  messages : list Message.t;
  media : list Media.t
}.

(** The unit of work of one [SessionLocal()]: the rows added and not yet
    committed. *)
Record Session := mkSession {
  new_messages : list Message.t;
  new_media : list Media.t
}.

Definition empty_session : Session := mkSession [] [].

(** ** Exceptions and the handler's effects *)

(** A raised object.  [exc_is_Exception] tells whether its class derives
    from [Exception], which is what [except Exception] tests. *)
Record PyExc := mkExc {
  exc_is_Exception : bool;
  exc_text : pystr
}.

Inductive Result (A : Type) : Type :=
| Ok (a : A)
| Raise (e : PyExc).
Arguments Ok {A} a.
Arguments Raise {A} e.

(** Requests the handler sends to the platform, in the order they are made. *)
Inductive Call :=
| GetFile (m : Medium)
| Download (f : File) (custom_path : pystr).

(** What the collaborators answer: the bot platform for [get_file] and
    [download_to_drive], the database for [flush] and [commit]. *)
Record Platform := mkPlatform {
  get_file : Medium -> Result File;
  download_to_drive : File -> pystr -> Result unit;
  flush : Store -> Session -> Result unit;
  commit : Store -> Session -> Result unit
}.

(** Everything the handler can change. *)
Record World := mkWorld {
  store : Store;
  pending : Session;
  calls : list Call;
  log : list PyExc
}.

(** A handler step: runs in a world, returns or raises, leaves a world. *)
Definition M (A : Type) : Type := World -> Result A * World.

Definition ret {A : Type} (a : A) : M A := fun w => (Ok a, w).

Definition bind {A B : Type} (m : M A) (k : A -> M B) : M B :=
  fun w =>
    match m w with
    | (Ok a, w') => k a w'
    | (Raise e, w') => (Raise e, w')
    end.

Declare Scope handler_scope.
Delimit Scope handler_scope with handler.
Notation "x <- m ;; k" := (bind m (fun x => k))
  (at level 61, m at next level, right associativity) : handler_scope.
Notation "m ;; k" := (bind m (fun _ => k))
  (at level 61, right associativity) : handler_scope.

(** Lifting an answer of a collaborator, and noting the request. *)
Definition answer {A : Type} (r : Result A) : M A := fun w => (r, w).

Definition note (c : Call) : M unit :=
  fun w => (Ok tt, mkWorld (store w) (pending w) (calls w ++ [c]) (log w)).

Definition set_pending (s : Session) : M unit :=
  fun w => (Ok tt, mkWorld (store w) s (calls w) (log w)).

Definition db_add_message (r : Message.t) : M unit :=
  fun w => set_pending
             (mkSession (new_messages (pending w) ++ [r]) (new_media (pending w))) w.

Definition db_add_media (r : Media.t) : M unit :=
  fun w => set_pending
             (mkSession (new_messages (pending w)) (new_media (pending w) ++ [r])) w.

(** [with SessionLocal() as db: body]: a fresh session; leaving the block,
    normally or by an exception, closes it and drops what was not
    committed. *)
Definition with_session {A : Type} (body : M A) : M A :=
  fun w =>
    let '(r, w') := (set_pending empty_session ;; body)%handler w in
    (r, mkWorld (store w') empty_session (calls w') (log w')).

(** [try: body / except Exception as e: logger.exception(...)]. *)
Definition try_except_Exception (body : M unit) : M unit :=
  fun w =>
    match body w with
    | (Ok tt, w') => (Ok tt, w')
    | (Raise e, w') =>
        if exc_is_Exception e
        then (Ok tt, mkWorld (store w') (pending w') (calls w') (log w' ++ [e]))
        else (Raise e, w')
    end.

Section Handler.

Variable lower : pystr -> pystr.

(** [str(MEDIA_BACKUP_DIR / fname)]: the directory comes from the process
    environment. *)
Variable media_path : pystr -> pystr.

Variable env : Platform.

Definition db_flush : M unit :=
  fun w => (flush env (store w) (pending w), w).

(** [db.commit()]: when the database accepts, the pending rows become
    part of the tables. *)
Definition db_commit : M unit :=
  fun w =>
    match commit env (store w) (pending w) with
    | Ok tt =>
        (Ok tt,
         mkWorld (mkStore (messages (store w) ++ new_messages (pending w))
                          (media (store w) ++ new_media (pending w)))
                 empty_session (calls w) (log w))
    | Raise e => (Raise e, w)
    end.

(** [await x.get_file()]. *)
Definition await_get_file (x : Medium) : M File :=
  (note (GetFile x) ;; answer (get_file env x))%handler.

(** [await tg_file.download_to_drive(custom_path=...)]. *)
Definition await_download (f : File) (custom_path : pystr) : M unit :=
  (note (Download f custom_path) ;; answer (download_to_drive env f custom_path))%handler.

(** Lines 101-127: the [Message] row built from the event. *)
Definition message_row (msg : TgMessage) : Message.t :=
  let user := from_user msg in
  let ctype := chat_type (chat msg) in
  Message.mk
    (chat_id (chat msg))
    (option_map user_id user)
    (match user with Some u => username u | None => None end)
    (safe_full_name (match user with Some u => first_name u | None => None end)
                    (match user with Some u => last_name u | None => None end))
    (Py.or_else (text msg) (caption msg))
    (date msg)
    (message_id msg)
    (option_map message_id (reply_to_message msg))
    ctype
    (String.eqb ctype "group" || String.eqb ctype "supergroup").

(** Lines 132-156: the chain of [if]/[elif] over the attachment fields. *)
Definition fetch_medium (msg : TgMessage) : M (option (File * pystr)) :=
  (match photo msg with
   | p :: rest =>
       tg_file <- await_get_file (last rest p) ;; ret (Some (tg_file, "photo"))
   | [] =>
   match video msg with
   | Some x => tg_file <- await_get_file x ;; ret (Some (tg_file, "video"))
   | None =>
   match document msg with
   | Some x => tg_file <- await_get_file x ;; ret (Some (tg_file, "document"))
   | None =>
   match voice msg with
   | Some x => tg_file <- await_get_file x ;; ret (Some (tg_file, "voice"))
   | None =>
   match audio msg with
   | Some x => tg_file <- await_get_file x ;; ret (Some (tg_file, "audio"))
   | None =>
   match animation msg with
   | Some x => tg_file <- await_get_file x ;; ret (Some (tg_file, "animation"))
   | None =>
   match sticker msg with
   | Some x => tg_file <- await_get_file x ;; ret (Some (tg_file, "sticker"))
   | None => ret None
   end end end end end end end)%handler.

(** Lines 158-171: download under the built name and stage the row.  In
    [if tg_file and media_type] a [File] object is always true, so the test
    is on [media_type]. *)
Definition save_medium (msg : TgMessage) (sel : option (File * pystr)) : M unit :=
  (match sel with
   | Some (tg_file, media_type) =>
       if Py.truthy media_type then
         let fname := file_basename lower (chat_id (chat msg)) (message_id msg)
                                    tg_file None in
         let dest_path := media_path fname in
         await_download tg_file dest_path ;;
         db_add_media (Media.mk (message_id msg) (chat_id (chat msg))
                                media_type fname dest_path)
       else ret tt
   | None => ret tt
   end)%handler.

(** Lines 97-173: the body of the [try]. *)
Definition backup_body (update : Update) : M unit :=
  (match effective_message update with
   | None => ret tt
   | Some msg =>
       with_session
         (db_add_message (message_row msg) ;;
          db_flush ;;
          sel <- fetch_medium msg ;;
          save_medium msg sel ;;
          db_commit)
   end)%handler.

(** [backup_message(update, context)]. *)
Definition backup_message (update : Update) : M unit :=
  try_except_Exception (backup_body update).

End Handler.

(** ** The attachment priority, as the specification words it *)

(** The attachment fields in the order photo, video, document, voice,
    audio, animation, sticker; a photo stands for its last size. *)
Definition candidates (msg : TgMessage) : list (option Medium * pystr) :=
  [ (Py.last_item (photo msg), "photo");
    (video msg, "video");
    (document msg, "document");
    (voice msg, "voice");
    (audio msg, "audio");
    (animation msg, "animation");
    (sticker msg, "sticker") ].

(** The first field that is present. *)
Fixpoint first_match (l : list (option Medium * pystr)) : option (Medium * pystr) :=
  match l with
  | [] => None
  | (Some m, kind) :: _ => Some (m, kind)
  | (None, _) :: rest => first_match rest
  end.

(** ** The name prefix, as the specification words it *)

(** ["{chat_id}_{message_id}_{file_unique_token}"]. *)
Definition name_prefix (chat_id message_id : Z) (tg_file : File) : pystr :=
  (Py.str_of_int chat_id ++ "_" ++ Py.str_of_int message_id ++ "_")
    ++ file_unique_id tg_file.

(** ** The resolvable extension, as the specification words it *)

(** [b] is the text after the last ["."] of the remote path. *)
Definition path_tail (file : File) (b : pystr) : Prop :=
  exists a, file_path file = Some (a ++ "." ++ b) /\ Py.contains dot b = false.

(** [core] is the supplied fallback without the dots at its two ends. *)
Definition fallback_core (fb : option pystr) (core : pystr) : Prop :=
  exists n k, fb = Some (Py.replicate n dot ++ core ++ Py.replicate k dot) /\
              (forall r, core <> String dot r) /\
              (forall r, core <> r ++ ".").

(** An extension [raw] is resolvable from the two inputs: it is the
    non-empty text after the last dot of the remote path, or, when the path
    has no such text, the non-empty core of the fallback. *)
Definition resolvable (file : File) (fb : option pystr) (raw : pystr) : Prop :=
  (path_tail file raw /\ raw <> "") \/
  ((forall b, path_tail file b -> b = "") /\ fallback_core fb raw /\ raw <> "").

(** ** Errors the handler is meant to absorb *)

(** Every error the collaborators of [env] raise is an instance of
    [Exception]. *)
Definition raises_only_Exception (env : Platform) : Prop :=
  (forall x e, get_file env x = Raise e -> exc_is_Exception e = true) /\
  (forall f p e, download_to_drive env f p = Raise e -> exc_is_Exception e = true) /\
  (forall st ses e, flush env st ses = Raise e -> exc_is_Exception e = true) /\
  (forall st ses e, commit env st ses = Raise e -> exc_is_Exception e = true).

(** ** Sample events and collaborators *)

Definition sample_path (fname : pystr) : pystr := "telegram_media_backup/" ++ fname.

Definition sample_file (x : Medium) : File :=
  mkFile (Some ("photos/" ++ file_id x ++ ".JPG")) ("AQAD" ++ file_id x).

Definition network_error : PyExc := mkExc true "telegram.error.NetworkError".

Definition good_platform : Platform :=
  mkPlatform (fun x => Ok (sample_file x)) (fun _ _ => Ok tt)
             (fun _ _ => Ok tt) (fun _ _ => Ok tt).

Definition failing_transfer : Platform :=
  mkPlatform (fun x => Ok (sample_file x)) (fun _ _ => Raise network_error)
             (fun _ _ => Ok tt) (fun _ _ => Ok tt).

Definition ada : User := mkUser 42 (Some "ada") (Some "Ada") (Some "Lovelace").

(** A supergroup post with a text, a photo in two sizes and a document. *)
Definition photo_post : TgMessage :=
  mkTgMessage (mkChat (-1001) "supergroup") (Some ada) (Some "hello") None
              1700000000 7 None
              [mkMedium "small"; mkMedium "large"] None (Some (mkMedium "doc"))
              None None None None.

(** A private photo with a caption and no text. *)
Definition captioned_photo : TgMessage :=
  mkTgMessage (mkChat 100 "private") (Some ada) None (Some "sunset")
              1700000100 8 None
              [mkMedium "only"] None None None None None None.

(** A database that already holds one message. *)
Definition sample_world : World :=
  mkWorld (mkStore [message_row captioned_photo] []) empty_session [] [].

(** ** Relations between the two tables *)

(** Every [Media] row has a [Message] row with its chat and message
    identifiers. *)
Definition media_owned (st : Store) : Prop :=
  forall md, In md (media st) ->
    exists m, In m (messages st) /\
              Message.chat_id m = Media.chat_id md /\
              Message.message_id m = Media.message_id md.

(** Collaborators that answer every request. *)
Definition never_fails (env : Platform) : Prop :=
  (forall x, exists f, get_file env x = Ok f) /\
  (forall f p, download_to_drive env f p = Ok tt) /\
  (forall st ses, flush env st ses = Ok tt) /\
  (forall st ses, commit env st ses = Ok tt).

(** ** Successive events *)

(** The handler called on one event after another, each with the answers
    the collaborators give at that time; an error that leaves the handler
    ends the run. *)
Fixpoint deliver (lower media_path : pystr -> pystr)
         (events : list (Platform * Update)) (w : World) : Result unit * World :=
  match events with
  | [] => (Ok tt, w)
  | (env, update) :: rest =>
      match backup_message lower media_path env update w with
      | (Ok _, w') => deliver lower media_path rest w'
      | (Raise e, w') => (Raise e, w')
      end
  end.

(** The [Message] rows of the events that carry a message, in order. *)
Definition rows_of (events : list (Platform * Update)) : list Message.t :=
  flat_map (fun ev => match effective_message (snd ev) with
                      | Some msg => [message_row msg]
                      | None => []
                      end) events.

(** How many of the events carry an attachment of a known kind. *)
Definition attachments_in (events : list (Platform * Update)) : nat :=
  List.length (filter (fun ev => match effective_message (snd ev) with
                            | Some msg =>
                                match first_match (candidates msg) with
                                | Some _ => true
                                | None => false
                                end
                            | None => false
                            end) events).

(** ** More sample events and collaborators *)

(** A private text message with no attachment. *)
Definition text_only : TgMessage :=
  mkTgMessage (mkChat 100 "private") None (Some "hi") None
              1700000200 9 None [] None None None None None None.

Definition database_error : PyExc := mkExc true "sqlalchemy.exc.OperationalError".

Definition cancelled : PyExc := mkExc false "asyncio.CancelledError".

Definition failing_flush : Platform :=
  mkPlatform (fun x => Ok (sample_file x)) (fun _ _ => Ok tt)
             (fun _ _ => Raise database_error) (fun _ _ => Ok tt).

Definition failing_commit : Platform :=
  mkPlatform (fun x => Ok (sample_file x)) (fun _ _ => Ok tt)
             (fun _ _ => Ok tt) (fun _ _ => Raise database_error).

Definition cancelling : Platform :=
  mkPlatform (fun _ => Raise cancelled) (fun _ _ => Ok tt)
             (fun _ _ => Ok tt) (fun _ _ => Ok tt).

(** * Properties *)

(** ** Strings *)

Lemma append_assoc (a b c : pystr) : (a ++ b) ++ c = a ++ b ++ c.
Proof. induction a as [|x a IH]; simpl; [reflexivity | now rewrite IH]. Qed.

Lemma append_empty_r (a : pystr) : a ++ "" = a.
Proof. induction a as [|x a IH]; simpl; [reflexivity | now rewrite IH]. Qed.

Lemma append_same_prefix (p a b : pystr) : p ++ a = p ++ b -> a = b.
Proof.
  induction p as [|x p IH]; simpl; intros H; [exact H|].
  injection H as H. auto.
Qed.

Lemma truthy_true_iff (s : pystr) : Py.truthy s = true <-> s <> "".
Proof. destruct s; simpl; split; congruence. Qed.

Lemma truthy_false_iff (s : pystr) : Py.truthy s = false <-> s = "".
Proof. destruct s; simpl; split; congruence. Qed.

Lemma contains_app (c : ascii) (a b : pystr) :
  Py.contains c (a ++ b) = (Py.contains c a || Py.contains c b)%bool.
Proof.
  induction a as [|x a IH]; simpl; [reflexivity|].
  now rewrite IH, orb_assoc.
Qed.

Lemma rsplit_once_absent (c : ascii) (s : pystr) :
  Py.contains c s = false -> Py.rsplit_once c s = None.
Proof.
  induction s as [|x s IH]; simpl; [reflexivity|].
  intros H. apply orb_false_iff in H as [Hx Hs].
  now rewrite (IH Hs), Hx.
Qed.

(** [rsplit_once] cuts at the last occurrence: what follows it holds no
    separator. *)
Lemma rsplit_once_last (c : ascii) (a b : pystr) :
  Py.contains c b = false ->
  Py.rsplit_once c (a ++ String c b) = Some (a, b).
Proof.
  intros Hb. induction a as [|x a IH]; simpl.
  - now rewrite (rsplit_once_absent _ _ Hb), Ascii.eqb_refl.
  - now rewrite IH.
Qed.

Lemma rsplit_once_sound (c : ascii) (s hd tl : pystr) :
  Py.rsplit_once c s = Some (hd, tl) ->
  s = hd ++ String c tl /\ Py.contains c tl = false.
Proof.
  revert hd tl. induction s as [|x s IH]; simpl; intros hd tl H; [discriminate|].
  destruct (Py.rsplit_once c s) as [[h t]|] eqn:E.
  - injection H as <- <-. destruct (IH h t eq_refl) as [-> Ht]. now split.
  - destruct (Ascii.eqb_spec x c) as [->|]; [|discriminate].
    injection H as <- <-. split; [reflexivity|].
    destruct (Py.contains c s) eqn:Hc; [|reflexivity].
    exfalso. clear IH. induction s as [|y s IHs]; simpl in *; [discriminate|].
    destruct (Py.rsplit_once c s) as [[h t]|]; [discriminate|].
    destruct (Ascii.eqb y c); [discriminate|]. simpl in Hc. auto.
Qed.

Lemma rsplit_once_present (c : ascii) (s : pystr) :
  Py.contains c s = true -> exists hd tl, Py.rsplit_once c s = Some (hd, tl).
Proof.
  induction s as [|x s IH]; simpl; [discriminate|].
  destruct (Py.rsplit_once c s) as [[h t]|] eqn:E; [eauto|].
  destruct (Ascii.eqb x c); simpl; [eauto|].
  intros H. destruct (IH H) as (h & t & Habs). discriminate.
Qed.

Lemma lstrip_replicate (c : ascii) (n : nat) (s : pystr) :
  Py.lstrip c (Py.replicate n c ++ s) = Py.lstrip c s.
Proof. induction n as [|n IH]; simpl; [reflexivity | now rewrite Ascii.eqb_refl]. Qed.

Lemma lstrip_fixed (c : ascii) (s : pystr) :
  (forall r, s <> String c r) -> Py.lstrip c s = s.
Proof.
  destruct s as [|x s]; simpl; [reflexivity|]. intros H.
  destruct (Ascii.eqb_spec x c) as [->|]; [|reflexivity].
  now destruct (H s).
Qed.

Lemma rstrip_replicate_only (c : ascii) (n : nat) : Py.rstrip c (Py.replicate n c) = "".
Proof. induction n as [|n IH]; simpl; [reflexivity | now rewrite IH, Ascii.eqb_refl]. Qed.

Lemma rstrip_replicate (c : ascii) (n : nat) (s : pystr) :
  Py.rstrip c (s ++ Py.replicate n c) = Py.rstrip c s.
Proof.
  induction s as [|x s IH]; simpl; [apply rstrip_replicate_only | now rewrite IH].
Qed.

Lemma rstrip_fixed (c : ascii) (s : pystr) :
  (forall r, s <> r ++ String c "") -> Py.rstrip c s = s.
Proof.
  induction s as [|x s IH]; simpl; [reflexivity|]. intros H.
  rewrite IH.
  - destruct s as [|y s].
    + destruct (Ascii.eqb_spec x c) as [->|]; [|reflexivity].
      now destruct (H "").
    + reflexivity.
  - intros r ->. now apply (H (String x r)).
Qed.

(** [strip] takes the character off both ends and nothing else. *)
Lemma strip_spec (c : ascii) (n m : nat) (core : pystr) :
  (forall r, core <> String c r) ->
  (forall r, core <> r ++ String c "") ->
  Py.strip c (Py.replicate n c ++ core ++ Py.replicate m c) = core.
Proof.
  intros Hl Hr. unfold Py.strip. rewrite lstrip_replicate.
  destruct core as [|x core].
  - simpl. clear. induction m as [|m IH]; simpl; [reflexivity|].
    now rewrite Ascii.eqb_refl.
  - rewrite lstrip_fixed.
    + rewrite rstrip_replicate. now apply rstrip_fixed.
    + intros r. simpl. intros H. injection H as -> _. now destruct (Hl core).
Qed.

Lemma lstrip_decompose (c : ascii) (e : pystr) :
  exists n, e = Py.replicate n c ++ Py.lstrip c e /\
            forall r, Py.lstrip c e <> String c r.
Proof.
  induction e as [|x e (n & He & Hn)]; cbn.
  - exists O. split; [reflexivity | discriminate].
  - destruct (Ascii.eqb_spec x c) as [->|Hx].
    + exists (S n). cbn. split; [now rewrite <- He | exact Hn].
    + exists O. split; [reflexivity|]. intros r H. now injection H.
Qed.

Lemma rstrip_empty (c : ascii) (s : pystr) :
  Py.rstrip c s = "" -> exists n, s = Py.replicate n c.
Proof.
  induction s as [|x s IH]; cbn; intros H; [now exists O|].
  destruct (Py.rstrip c s); [|discriminate].
  destruct (Ascii.eqb_spec x c) as [->|]; [|discriminate].
  destruct (IH eq_refl) as [n ->]. now exists (S n).
Qed.

Lemma strip_empty_iff (c : ascii) (e : pystr) :
  Py.strip c e = "" <-> exists n, e = Py.replicate n c.
Proof.
  split.
  - unfold Py.strip. intros H.
    destruct (lstrip_decompose c e) as (n & He & Hn).
    apply rstrip_empty in H as [k Hk]. rewrite Hk in He, Hn.
    destruct k as [|k]; [|now destruct (Hn (Py.replicate k c))].
    exists n. now rewrite He, append_empty_r.
  - intros [n ->]. unfold Py.strip.
    rewrite <- (append_empty_r (Py.replicate n c)), lstrip_replicate. reflexivity.
Qed.

Lemma rstrip_decompose (c : ascii) (s : pystr) :
  exists k, s = Py.rstrip c s ++ Py.replicate k c /\
            forall r, Py.rstrip c s <> r ++ String c "".
Proof.
  induction s as [|x s (k & Hs & Hk)]; cbn.
  - exists O. split; [reflexivity|]. intros [|y r]; discriminate.
  - destruct (Py.rstrip c s) as [|y t] eqn:E.
    + destruct (Ascii.eqb_spec x c) as [->|Hx].
      * exists (S k). cbn. split; [now rewrite Hs|]. intros [|y r]; discriminate.
      * exists k. cbn. split; [now rewrite Hs|].
        intros [|y [|z r]] H; cbn in H; try discriminate.
        injection H as H. contradiction.
    + exists k. cbn. split; [now rewrite Hs at 1|].
      intros [|z r] H; cbn in H; [discriminate|].
      injection H as _ H. now apply (Hk r).
Qed.

(** Any string is its [strip] between two runs of the stripped character,
    and the [strip] neither starts nor ends with it. *)
Lemma strip_decompose (c : ascii) (e : pystr) :
  exists n k, e = Py.replicate n c ++ Py.strip c e ++ Py.replicate k c /\
              (forall r, Py.strip c e <> String c r) /\
              (forall r, Py.strip c e <> r ++ String c "").
Proof.
  unfold Py.strip.
  destruct (lstrip_decompose c e) as (n & He & Hn).
  destruct (rstrip_decompose c (Py.lstrip c e)) as (k & Hs & Hk).
  exists n, k. split; [now rewrite <- Hs|]. split; [|exact Hk].
  intros r H. rewrite H in Hs. now apply (Hn (r ++ Py.replicate k c)).
Qed.

Lemma ascii_lower_empty (s : pystr) : Py.ascii_lower s = "" <-> s = "".
Proof. destruct s; simpl; split; congruence. Qed.

Example str_of_int_samples :
  Py.str_of_int 100 = "100" /\ Py.str_of_int 0 = "0" /\
  Py.str_of_int (-1001234567890) = "-1001234567890".
Proof. repeat split. Qed.

Example strip_samples :
  Py.strip dot ".JPG" = "JPG" /\ Py.strip dot "tar.gz." = "tar.gz" /\
  Py.strip dot "..." = "" /\ Py.rsplit1 dot "a.b/c.D" = ["a.b/c"; "D"] /\
  Py.rsplit1 dot "abc" = ["abc"].
Proof. repeat split. Qed.

(** ** The filename builder *)

Section FilenameBuilderFacts.

Variable lower : pystr -> pystr.

Lemma last_item_rsplit1 (s : pystr) :
  exists tl, Py.last_item (Py.rsplit1 dot s) = Some tl.
Proof.
  unfold Py.rsplit1.
  destruct (Py.rsplit_once dot s) as [[hd tl]|]; eexists; reflexivity.
Qed.

Lemma path_ext_dotted (a b uid : pystr) :
  Py.contains dot b = false ->
  path_ext lower (mkFile (Some (a ++ "." ++ b)) uid) = Some (lower b).
Proof.
  intros Hb. unfold path_ext. cbn [file_path].
  assert (Ht : Py.truthy (a ++ "." ++ b) = true) by (now destruct a).
  assert (Hc : Py.contains dot (a ++ "." ++ b) = true).
  { rewrite contains_app. cbn. apply orb_true_r. }
  rewrite Ht, Hc. cbn [andb]. unfold Py.rsplit1.
  change ("." ++ b) with (String dot b).
  now rewrite (rsplit_once_last dot a b Hb).
Qed.

Lemma path_ext_lowered (file : File) (e : pystr) :
  path_ext lower file = Some e -> exists raw, e = lower raw.
Proof.
  unfold path_ext. destruct (file_path file) as [p|]; [|discriminate].
  destruct (Py.truthy p && Py.contains dot p)%bool; [|discriminate].
  destruct (Py.last_item (Py.rsplit1 dot p)) as [tl|]; [|discriminate].
  cbn. intros H. injection H as <-. eauto.
Qed.

Lemma resolved_ext_lowered (file : File) (fb : option pystr) (e : pystr) :
  resolved_ext lower file fb = Some e -> exists raw, e = lower raw.
Proof.
  unfold resolved_ext.
  destruct (negb (Py.truthy_opt (path_ext lower file)) && Py.truthy_opt fb)%bool.
  - destruct fb as [x|]; [|discriminate]. cbn. intros H. injection H as <-. eauto.
  - apply path_ext_lowered.
Qed.

Lemma file_basename_split (c m : Z) (file : File) (fb : option pystr) :
  file_basename lower c m file fb
  = name_prefix c m file ++ suffix_of (resolved_ext lower file fb).
Proof.
  unfold file_basename, name_prefix. now rewrite !append_assoc.
Qed.

Lemma suffix_empty_iff (ext : option pystr) :
  suffix_of ext = "" <-> Py.truthy_opt ext = false.
Proof.
  destruct ext as [[|x e]|]; cbn; split; congruence.
Qed.

Lemma path_ext_falsy_iff (file : File) :
  (forall s, lower s = "" <-> s = "") ->
  Py.truthy_opt (path_ext lower file) = false <->
  (forall a b, file_path file = Some (a ++ "." ++ b) ->
               Py.contains dot b = false -> b = "").
Proof.
  intros Hlow. destruct file as [[p|] uid]; cbn [file_path].
  - split.
    + intros H a b Hp Hb.
      assert (E : p = a ++ "." ++ b) by (now injection Hp). subst p.
      unfold pystr in H. rewrite (path_ext_dotted a b uid Hb) in H. cbn in H.
      apply truthy_false_iff in H. now apply Hlow.
    + intros H. destruct (Py.contains dot p) eqn:Hc.
      * destruct (rsplit_once_present dot p Hc) as (hd & tl & Hs).
        destruct (rsplit_once_sound dot p hd tl Hs) as [-> Htl].
        assert (E : tl = "") by (apply (H hd tl); [reflexivity | exact Htl]).
        subst tl.
        change (Py.truthy_opt (path_ext lower (mkFile (Some (hd ++ "." ++ "")) uid))
                = false).
        rewrite (path_ext_dotted hd "" uid eq_refl). cbn.
        apply truthy_false_iff, Hlow. reflexivity.
      * unfold path_ext. cbn [file_path]. now rewrite Hc, andb_false_r.
  - split; [discriminate | reflexivity].
Qed.

Lemma path_tail_unique (file : File) (b b' : pystr) :
  path_tail file b -> path_tail file b' -> b = b'.
Proof.
  intros (a & Hp & Hb) (a' & Hp' & Hb'). rewrite Hp in Hp'. injection Hp' as H.
  change (a ++ String dot b = a' ++ String dot b') in H.
  apply (f_equal (Py.rsplit_once dot)) in H.
  rewrite (rsplit_once_last dot a b Hb), (rsplit_once_last dot a' b' Hb') in H.
  now injection H.
Qed.

(** The resolved extension, read off the two inputs. *)
Lemma resolved_ext_of_inputs (file : File) (fb : option pystr) (raw : pystr) :
  (forall s, lower s = "" <-> s = "") ->
  resolvable file fb raw ->
  resolved_ext lower file fb = Some (lower raw) /\ lower raw <> "".
Proof.
  intros Hlow Hres.
  assert (Hne : forall r, r <> "" -> lower r <> "").
  { intros r Hr H. apply Hr. now apply Hlow. }
  destruct Hres as [[(a & Hp & Hb) Hraw]|(Hnone & (n & k & Hfb & Hl & Hr) & Hraw)].
  - split; [|now apply Hne]. destruct file as [fp uid].
    change (fp = Some (a ++ "." ++ raw)) in Hp. subst fp.
    unfold resolved_ext. rewrite (path_ext_dotted a raw uid Hb). cbn.
    destruct (lower raw) eqn:E; [|reflexivity]. now destruct (Hne raw Hraw).
  - split; [|now apply Hne]. subst fb.
    assert (Hp : Py.truthy_opt (path_ext lower file) = false).
    { apply (path_ext_falsy_iff file Hlow). intros a b Hp Hb.
      apply Hnone. now exists a. }
    unfold resolved_ext. rewrite Hp. cbn [negb andb Py.truthy_opt].
    assert (He : Py.truthy (Py.replicate n dot ++ raw ++ Py.replicate k dot) = true).
    { destruct n; [|reflexivity]. destruct raw; [contradiction | reflexivity]. }
    rewrite He. cbn [option_map]. now rewrite strip_spec.
Qed.

(** Either an extension is resolvable from the inputs, or the resolved
    value is false. *)
Lemma resolvable_or_bare (file : File) (fb : option pystr) :
  (forall s, lower s = "" <-> s = "") ->
  (exists raw, resolvable file fb raw) \/
  Py.truthy_opt (resolved_ext lower file fb) = false.
Proof.
  intros Hlow.
  destruct (Py.truthy_opt (path_ext lower file)) eqn:Hp.
  - left. destruct file as [[p|] uid]; [|discriminate].
    destruct (Py.contains dot p) eqn:Hc.
    + destruct (rsplit_once_present dot p Hc) as (hd & tl & Hs).
      destruct (rsplit_once_sound dot p hd tl Hs) as [-> Htl].
      exists tl. left. split; [now exists hd|]. intros ->.
      change (Py.truthy_opt (path_ext lower (mkFile (Some (hd ++ "." ++ "")) uid))
              = true) in Hp.
      rewrite (path_ext_dotted hd "" uid eq_refl) in Hp. cbn in Hp.
      rewrite (proj2 (Hlow "") eq_refl) in Hp. discriminate.
    + unfold path_ext in Hp. cbn [file_path] in Hp.
      rewrite Hc, andb_false_r in Hp. discriminate.
  - assert (Hnone : forall b, path_tail file b -> b = "").
    { intros b (a & Hfp & Hb).
      exact (proj1 (path_ext_falsy_iff file Hlow) Hp a b Hfp Hb). }
    unfold resolved_ext. rewrite Hp. cbn [negb andb].
    destruct fb as [e|]; cbn [Py.truthy_opt option_map]; [|now right].
    destruct (Py.truthy e) eqn:He; [|now right].
    destruct (strip_decompose dot e) as (n & k & Hdec & Hl & Hr).
    destruct (Py.strip dot e) as [|x core] eqn:Hcore.
    + right. cbn. now rewrite (proj2 (Hlow "") eq_refl).
    + left. exists (String x core). right. split; [exact Hnone|]. split.
      * exists n, k. rewrite Hdec at 1. auto.
      * discriminate.
Qed.

(** C2.  The built name starts with the prefix
    ["{chat_id}_{message_id}_{token}"].  When an extension is resolvable
    from the inputs (the non-empty text after the last ["."] of the remote
    path or, failing that, the non-empty fallback without the dots at its
    ends) the name is the prefix, ["."] and that extension lowercased; when
    none is, the name is the prefix alone; and one of the two is always the
    case.  [str.lower] is assumed to map the empty string, and no other, to
    the empty string. *)
Theorem file_basename_shape (c m : Z) (file : File) (fb : option pystr) :
  (forall s, lower s = "" <-> s = "") ->
  let out := file_basename lower c m file fb in
  let pre := name_prefix c m file in
  (exists rest, out = pre ++ rest) /\
  (forall raw, resolvable file fb raw -> out = pre ++ "." ++ lower raw) /\
  ((exists raw, resolvable file fb raw) \/ out = pre) /\
  (out = pre <-> ~ exists raw, resolvable file fb raw).
Proof.
  intros Hlow. cbv zeta. rewrite file_basename_split.
  assert (Hyes : forall raw, resolvable file fb raw ->
            name_prefix c m file ++ suffix_of (resolved_ext lower file fb)
            = name_prefix c m file ++ "." ++ lower raw).
  { intros raw Hres.
    destruct (resolved_ext_of_inputs file fb raw Hlow Hres) as [-> Hne].
    cbn. now destruct (lower raw). }
  assert (Hcase : (exists raw, resolvable file fb raw) \/
            name_prefix c m file ++ suffix_of (resolved_ext lower file fb)
            = name_prefix c m file).
  { destruct (resolvable_or_bare file fb Hlow) as [H|H]; [now left|right].
    apply suffix_empty_iff in H. now rewrite H, append_empty_r. }
  split; [eauto|]. split; [exact Hyes|]. split; [exact Hcase|]. split.
  - intros Hbare (raw & Hres). rewrite (Hyes raw Hres) in Hbare.
    rewrite <- (append_empty_r (name_prefix c m file)) in Hbare at 2.
    apply append_same_prefix in Hbare. discriminate.
  - intros Hno. destruct Hcase as [H|H]; [contradiction | exact H].
Qed.

(** C3, amended.  When the remote path has a non-empty dot-free text after
    its last ["."], the resolved extension is that text lowercased,
    whatever fallback was supplied; and the fallback can change the result
    only when the path gave no extension or an empty one. *)
Theorem path_extension_precedence (file : File) (fb : option pystr) :
  (forall s, lower s = "" -> s = "") ->
  (forall a b, file_path file = Some (a ++ "." ++ b) ->
               Py.contains dot b = false -> b <> "" ->
               resolved_ext lower file fb = Some (lower b)) /\
  (resolved_ext lower file fb <> path_ext lower file ->
   Py.truthy_opt (path_ext lower file) = false).
Proof.
  intros Hlow. split.
  - intros a b Hp Hb Hne. destruct file as [fp uid].
    change (fp = Some (a ++ "." ++ b)) in Hp. subst fp.
    unfold resolved_ext. rewrite (path_ext_dotted a b uid Hb). cbn.
    destruct (lower b) eqn:E; [|reflexivity].
    now apply Hlow in E.
  - unfold resolved_ext.
    destruct (Py.truthy_opt (path_ext lower file)); cbn; congruence.
Qed.

(** C6, amended.  When the path gave no extension and a non-empty fallback
    is supplied, the resolved extension is the fallback without the dots
    at its two ends, lowercased: of [".."..core..".."] it keeps [core]. *)
Theorem fallback_ext_strips_both_ends (file : File) (n m : nat) (core : pystr) :
  Py.truthy_opt (path_ext lower file) = false ->
  (forall r, core <> String dot r) ->
  (forall r, core <> r ++ ".") ->
  Py.replicate n dot ++ core ++ Py.replicate m dot <> "" ->
  resolved_ext lower file (Some (Py.replicate n dot ++ core ++ Py.replicate m dot))
  = Some (lower core).
Proof.
  intros Hp Hl Hr Hne. unfold resolved_ext. rewrite Hp. cbn [negb andb Py.truthy_opt].
  apply truthy_true_iff in Hne. rewrite Hne. cbn [option_map].
  now rewrite strip_spec.
Qed.

(** C10.  A remote path that ends with ["."] yields the empty extension,
    which counts as none: the name is the one built without a remote
    path, so the fallback is used when supplied and no suffix is added
    otherwise. *)
Theorem trailing_dot_path_falls_through
        (c m : Z) (a uid : pystr) (fb : option pystr) :
  lower "" = "" ->
  let file := mkFile (Some (a ++ ".")) uid in
  path_ext lower file = Some "" /\
  resolved_ext lower file fb
  = (if Py.truthy_opt fb
     then option_map (fun e => lower (Py.strip dot e)) fb
     else Some "") /\
  file_basename lower c m file fb = file_basename lower c m (mkFile None uid) fb /\
  file_basename lower c m file None = name_prefix c m file.
Proof.
  intros Hlow file.
  assert (Hp : path_ext lower file = Some "").
  { unfold file. rewrite <- Hlow at 2.
    apply (path_ext_dotted a "" uid). reflexivity. }
  assert (Hr : forall fb', resolved_ext lower file fb'
               = if Py.truthy_opt fb'
                 then option_map (fun e => lower (Py.strip dot e)) fb'
                 else Some "").
  { intros fb'. unfold resolved_ext. rewrite Hp. cbn.
    now destruct (Py.truthy_opt fb'). }
  split; [exact Hp|]. split; [apply Hr|]. split.
  - rewrite !file_basename_split. unfold name_prefix. cbn [file_unique_id file].
    f_equal. rewrite Hr. unfold resolved_ext. cbn.
    now destruct (Py.truthy_opt fb).
  - rewrite file_basename_split, Hr. cbn. apply append_empty_r.
Qed.

End FilenameBuilderFacts.

(** ** The full name *)


(** ** The handler *)

Lemma last_item_cons {A : Type} (l : list A) (d : A) :
  Py.last_item (d :: l) = Some (last l d).
Proof.
  pose proof (@app_removelast_last _ (d :: l) d ltac:(discriminate)) as H.
  unfold Py.last_item. rewrite H, rev_unit. f_equal.
  destruct l; reflexivity.
Qed.

Section HandlerFacts.

Variable lower : pystr -> pystr.
Variable media_path : pystr -> pystr.
Variable env : Platform.

Local Abbreviation fetch := (fetch_medium env).
Local Abbreviation body := (backup_body lower media_path env).
Local Abbreviation handler := (backup_message lower media_path env).
Local Abbreviation built_name msg f :=
  (file_basename lower (chat_id (chat msg)) (message_id msg) f None).

(** The [if]/[elif] chain asks for the file of the first attachment
    field that is present, in the order of [candidates]. *)
Lemma fetch_medium_first_match (msg : TgMessage) (w : World) :
  fetch msg w =
  match first_match (candidates msg) with
  | Some (x, kind) =>
      (tg_file <- await_get_file env x ;; ret (Some (tg_file, kind)))%handler w
  | None => (Ok None, w)
  end.
Proof.
  unfold fetch_medium, candidates.
  destruct (photo msg) as [|p rest].
  - cbn [Py.last_item rev first_match].
    destruct (video msg); [reflexivity|].
    destruct (document msg); [reflexivity|].
    destruct (voice msg); [reflexivity|].
    destruct (audio msg); [reflexivity|].
    destruct (animation msg); [reflexivity|].
    destruct (sticker msg); reflexivity.
  - rewrite last_item_cons. reflexivity.
Qed.

Lemma first_match_kind (msg : TgMessage) (x : Medium) (kind : pystr) :
  first_match (candidates msg) = Some (x, kind) ->
  In kind ["photo"; "video"; "document"; "voice"; "audio"; "animation"; "sticker"].
Proof.
  unfold candidates. cbn [first_match].
  destruct (Py.last_item (photo msg)); [intros H; injection H as _ <-; cbn; tauto|].
  destruct (video msg); [intros H; injection H as _ <-; cbn; tauto|].
  destruct (document msg); [intros H; injection H as _ <-; cbn; tauto|].
  destruct (voice msg); [intros H; injection H as _ <-; cbn; tauto|].
  destruct (audio msg); [intros H; injection H as _ <-; cbn; tauto|].
  destruct (animation msg); [intros H; injection H as _ <-; cbn; tauto|].
  destruct (sticker msg); [intros H; injection H as _ <-; cbn; tauto|].
  discriminate.
Qed.

Lemma first_match_kind_truthy (msg : TgMessage) (x : Medium) (kind : pystr) :
  first_match (candidates msg) = Some (x, kind) -> Py.truthy kind = true.
Proof.
  intros H. apply first_match_kind in H. cbn in H.
  repeat (destruct H as [<-|H]; [reflexivity|]). contradiction.
Qed.

(** One run of the body, by the answers of the collaborators. *)
Lemma backup_body_run (update : Update) (msg : TgMessage) (w : World) :
  effective_message update = Some msg ->
  let cid := chat_id (chat msg) in
  let mid := message_id msg in
  let row := message_row msg in
  let closed (r : Result unit) (st : Store) (cs : list Call) :=
    (r, mkWorld st empty_session cs (log w)) in
  let finish (ses : Session) (cs : list Call) :=
    match commit env (store w) ses with
    | Ok _ => closed (Ok tt)
                     (mkStore (messages (store w) ++ new_messages ses)
                              (media (store w) ++ new_media ses)) cs
    | Raise e => closed (Raise e) (store w) cs
    end in
  body update w =
  match flush env (store w) (mkSession [row] []) with
  | Raise e => closed (Raise e) (store w) (calls w)
  | Ok _ =>
      match first_match (candidates msg) with
      | None => finish (mkSession [row] []) (calls w)
      | Some (x, kind) =>
          match get_file env x with
          | Raise e => closed (Raise e) (store w) (calls w ++ [GetFile x])%list
          | Ok f =>
              let fname := file_basename lower cid mid f None in
              let dest := media_path fname in
              match download_to_drive env f dest with
              | Raise e =>
                  closed (Raise e) (store w)
                         ((calls w ++ [GetFile x]) ++ [Download f dest])%list
              | Ok _ =>
                  finish (mkSession [row] [Media.mk mid cid kind fname dest])
                         ((calls w ++ [GetFile x]) ++ [Download f dest])%list
              end
          end
      end
  end.
Proof.
  intros Hmsg. cbv zeta. unfold backup_body. rewrite Hmsg.
  unfold with_session, bind at 1 2 3. cbn [set_pending db_add_message bind].
  unfold db_add_message, set_pending, bind at 1, db_flush.
  cbn [store pending calls log new_messages new_media empty_session app].
  destruct (flush env (store w) _) as [[]|e]; [|reflexivity].
  unfold bind at 1.
  rewrite fetch_medium_first_match.
  destruct (first_match (candidates msg)) as [[x kind]|] eqn:Hsel.
  - unfold await_get_file, note, answer, bind.
    cbn [store pending calls log].
    destruct (get_file env x) as [f|e]; [|reflexivity].
    unfold ret, save_medium.
    rewrite (first_match_kind_truthy _ _ _ Hsel).
    unfold await_download, note, answer, bind, db_add_media, set_pending.
    cbn [store pending calls log new_messages new_media app].
    destruct (download_to_drive env f _) as [[]|e]; [|reflexivity].
    unfold db_commit. cbn [store pending calls log].
    destruct (commit env (store w) _) as [[]|e]; reflexivity.
  - unfold save_medium, ret, bind, db_commit. cbn [store pending calls log].
    destruct (commit env (store w) _) as [[]|e]; reflexivity.
Qed.

End HandlerFacts.

Section HandlerClaims.

Variable lower : pystr -> pystr.
Variable media_path : pystr -> pystr.
Variable env : Platform.

Local Abbreviation body := (backup_body lower media_path env).
Local Abbreviation handler := (backup_message lower media_path env).
Local Abbreviation built_name msg f :=
  (file_basename lower (chat_id (chat msg)) (message_id msg) f None).

(** Whatever the body raises was raised by a collaborator, and by then
    nothing was committed, nothing logged and the session is closed. *)
Lemma body_raise_origin (update : Update) (w w1 : World) (e : PyExc) :
  body update w = (Raise e, w1) ->
  ((exists st ses, flush env st ses = Raise e) \/
   (exists x, get_file env x = Raise e) \/
   (exists f p, download_to_drive env f p = Raise e) \/
   (exists st ses, commit env st ses = Raise e)) /\
  store w1 = store w /\ log w1 = log w /\ pending w1 = empty_session.
Proof.
  destruct (effective_message update) as [msg|] eqn:Hmsg.
  - rewrite (backup_body_run lower media_path env update msg w Hmsg). cbv zeta.
    destruct (flush env (store w) _) as [[]|e0] eqn:Hfl.
    + destruct (first_match (candidates msg)) as [[x kind]|].
      * destruct (get_file env x) as [f|e1] eqn:Hg.
        -- destruct (download_to_drive env f _) as [[]|e2] eqn:Hd.
           ++ destruct (commit env (store w) _) as [[]|e3] eqn:Hc;
                intros H; inversion H; subst; cbn; eauto 10.
           ++ intros H; inversion H; subst; cbn; eauto 10.
        -- intros H; inversion H; subst; cbn; eauto 10.
      * destruct (commit env (store w) _) as [[]|e3] eqn:Hc;
          intros H; inversion H; subst; cbn; eauto 10.
    + intros H; inversion H; subst; cbn; eauto 10.
  - unfold backup_body. rewrite Hmsg. discriminate.
Qed.

Lemma handler_of_body_ok (update : Update) (w w1 : World) :
  body update w = (Ok tt, w1) -> handler update w = (Ok tt, w1).
Proof.
  intros H. unfold backup_message, try_except_Exception. now rewrite H.
Qed.

(** A run of the body that returns has committed the message row. *)
Lemma committed_message_row (update : Update) (msg : TgMessage) (w w1 : World) :
  effective_message update = Some msg ->
  body update w = (Ok tt, w1) ->
  handler update w = (Ok tt, w1) /\
  messages (store w1) = (messages (store w) ++ [message_row msg])%list.
Proof.
  intros Hmsg Hrun. split; [now apply handler_of_body_ok|].
  revert Hrun.
  rewrite (backup_body_run lower media_path env update msg w Hmsg). cbv zeta.
  destruct (flush env (store w) _) as [[]|e0]; [|discriminate].
  destruct (first_match (candidates msg)) as [[x kind]|].
  - destruct (get_file env x) as [f|e1]; [|discriminate].
    destruct (download_to_drive env f _) as [[]|e2]; [|discriminate].
    destruct (commit env (store w) _) as [[]|e3]; [|discriminate].
    intros H. now inversion H.
  - destruct (commit env (store w) _) as [[]|e3]; [|discriminate].
    intros H. now inversion H.
Qed.

(** C1.  When the event carries an attachment and resolving its file or
    transferring its bytes fails, the handler leaves the committed tables
    as they were: neither the staged [Message] row nor a [Media] row is
    there, and the session keeps nothing. *)
Theorem failed_download_commits_nothing
        (update : Update) (msg : TgMessage) (w : World) (x : Medium) (kind : pystr) :
  effective_message update = Some msg ->
  first_match (candidates msg) = Some (x, kind) ->
  (exists e, get_file env x = Raise e) \/
  (exists f e, get_file env x = Ok f /\
               download_to_drive env f (media_path (built_name msg f)) = Raise e) ->
  store (snd (handler update w)) = store w /\
  pending (snd (handler update w)) = empty_session.
Proof.
  intros Hmsg Hsel Hfail.
  destruct (body update w) as [[[]|e] w1] eqn:Hrun.
  - exfalso. revert Hrun.
    rewrite (backup_body_run lower media_path env update msg w Hmsg). cbv zeta.
    rewrite Hsel.
    destruct (flush env (store w) _) as [[]|e0]; [|discriminate].
    destruct Hfail as [[e He]|(f & e & Hf & He)].
    + rewrite He. discriminate.
    + rewrite Hf, He. discriminate.
  - destruct (body_raise_origin _ _ _ _ Hrun) as (_ & Hst & _ & Hp).
    unfold backup_message, try_except_Exception. rewrite Hrun.
    destruct (exc_is_Exception e); cbn; auto.
Qed.

(** C4, amended.  On every event and in every world, when the error the
    body raises, if any, is an instance of [Exception], the handler
    returns normally: the error is appended to the log and nothing of the
    event is committed; a body that returns is left as it is. *)
Theorem handler_never_raises (update : Update) (w : World) :
  (forall e w1, body update w = (Raise e, w1) -> exc_is_Exception e = true) ->
  exists w', handler update w = (Ok tt, w') /\
             (forall e w1, body update w = (Raise e, w1) ->
                           log w' = (log w ++ [e])%list /\ store w' = store w) /\
             (forall w1, body update w = (Ok tt, w1) -> w' = w1).
Proof.
  intros Hexc.
  unfold backup_message, try_except_Exception.
  destruct (body update w) as [[[]|e] w1] eqn:Hrun.
  - exists w1. split; [reflexivity|]. split; [discriminate|].
    intros w2 H. now inversion H.
  - destruct (body_raise_origin _ _ _ _ Hrun) as (_ & Hst & Hlog & _).
    rewrite (Hexc e w1 eq_refl). eexists. split; [reflexivity|]. split; [|discriminate].
    intros e' w2 H. inversion H; subst. cbn. now rewrite Hst, Hlog.
Qed.

(** C5.  A run that commits adds the [Message] row and, of the attachment
    fields taken in the order photo, video, document, voice, audio,
    animation, sticker, one [Media] row for the first that is present and
    named after it, or no [Media] row when none is; a photo therefore
    wins over a document. *)
Theorem one_medium_by_priority (update : Update) (msg : TgMessage) (w w1 : World) :
  effective_message update = Some msg ->
  body update w = (Ok tt, w1) ->
  handler update w = (Ok tt, w1) /\
  messages (store w1) = (messages (store w) ++ [message_row msg])%list /\
  match first_match (candidates msg) with
  | None => media (store w1) = media (store w)
  | Some (x, kind) =>
      exists f, get_file env x = Ok f /\
                media (store w1)
                = (media (store w)
                     ++ [Media.mk (message_id msg) (chat_id (chat msg)) kind
                                  (built_name msg f)
                                  (media_path (built_name msg f))])%list
  end /\
  (photo msg <> [] -> exists x, first_match (candidates msg) = Some (x, "photo")).
Proof.
  intros Hmsg Hrun. split; [now apply handler_of_body_ok|].
  revert Hrun.
  rewrite (backup_body_run lower media_path env update msg w Hmsg). cbv zeta.
  destruct (flush env (store w) _) as [[]|e0]; [|discriminate].
  assert (Hphoto : photo msg <> [] ->
                   exists x, first_match (candidates msg) = Some (x, "photo")).
  { destruct (photo msg) as [|p rest] eqn:Hp; [congruence|]. intros _.
    unfold candidates. rewrite Hp, last_item_cons. cbn. eauto. }
  destruct (first_match (candidates msg)) as [[x kind]|].
  - destruct (get_file env x) as [f|e1]; [|discriminate].
    destruct (download_to_drive env f _) as [[]|e2]; [|discriminate].
    destruct (commit env (store w) _) as [[]|e3]; [|discriminate].
    intros H. inversion H; subst. cbn. repeat split; eauto.
  - destruct (commit env (store w) _) as [[]|e3]; [|discriminate].
    intros H. inversion H; subst. cbn. repeat split; auto.
    now rewrite app_nil_r.
Qed.

(** C8.  For an event with photo sizes [init ++ [x]], once the message row
    is staged the handler asks the platform for the file of [x], the last
    size, and for no other; the transfer that follows is of the file the
    platform answered. *)
Theorem photo_uses_last_size
        (update : Update) (msg : TgMessage) (w : World)
        (init : list Medium) (x : Medium) :
  effective_message update = Some msg ->
  photo msg = (init ++ [x])%list ->
  flush env (store w) (mkSession [message_row msg] []) = Ok tt ->
  match get_file env x with
  | Ok f =>
      calls (snd (handler update w))
      = (calls w ++ [GetFile x; Download f (media_path (built_name msg f))])%list
  | Raise _ =>
      calls (snd (handler update w)) = (calls w ++ [GetFile x])%list
  end.
Proof.
  intros Hmsg Hp Hfl.
  assert (Hsel : first_match (candidates msg) = Some (x, "photo")).
  { unfold candidates, Py.last_item. rewrite Hp, rev_unit. reflexivity. }
  unfold backup_message, try_except_Exception.
  rewrite (backup_body_run lower media_path env update msg w Hmsg). cbv zeta.
  rewrite Hfl, Hsel.
  destruct (get_file env x) as [f|e1].
  - rewrite <- app_assoc. cbn [app].
    destruct (download_to_drive env f _) as [[]|e2].
    + destruct (commit env (store w) _) as [[]|e3]; [reflexivity|].
      destruct (exc_is_Exception e3); reflexivity.
    + destruct (exc_is_Exception e2); reflexivity.
  - destruct (exc_is_Exception e1); reflexivity.
Qed.

(** C9.  The [Message] row a run commits holds the event's text when the
    event has one (a non-empty string), and otherwise the caption, which
    may be missing. *)
Theorem stored_text_or_caption (update : Update) (msg : TgMessage) (w w1 : World) :
  effective_message update = Some msg ->
  body update w = (Ok tt, w1) ->
  exists row,
    messages (store (snd (handler update w))) = (messages (store w) ++ [row])%list /\
    (forall t, text msg = Some t -> t <> "" -> Message.text row = Some t) /\
    (text msg = None -> Message.text row = caption msg) /\
    (text msg = Some "" -> Message.text row = caption msg).
Proof.
  intros Hmsg Hrun.
  destruct (committed_message_row update msg w w1 Hmsg Hrun) as [Hh Hm].
  exists (message_row msg). rewrite Hh. cbn [snd]. split; [exact Hm|].
  unfold message_row. cbn [Message.text]. unfold Py.or_else.
  repeat split.
  - intros t -> Ht. destruct t; [contradiction | reflexivity].
  - intros ->. reflexivity.
  - intros ->. reflexivity.
Qed.

End HandlerClaims.

(** ** The claims at sample inputs *)

Lemma ascii_lower_nonempty (s : pystr) : Py.ascii_lower s = "" -> s = "".
Proof. apply ascii_lower_empty. Qed.

Lemma failing_transfer_raises_only_Exception : raises_only_Exception failing_transfer.
Proof.
  repeat split; cbn; intros; try discriminate.
  match goal with H : Raise _ = Raise _ |- _ => now inversion H end.
Qed.

Ltac no_such_suffix :=
  let r := fresh "r" in
  let H := fresh "H" in
  intros r H;
  repeat (destruct r as [|? r]; [discriminate H|]; cbn in H; injection H as _ H);
  destruct r; discriminate H.

Lemma file_basename_shape_witness :
  file_basename Py.ascii_lower 100 7 (mkFile None "ABC") None = "100_7_ABC" /\
  file_basename Py.ascii_lower 100 7 (mkFile (Some "videos/clip.MP4") "ABC") (Some "bin")
  = "100_7_ABC.mp4" /\
  file_basename Py.ascii_lower 100 7 (mkFile None "ABC") (Some ".Bin") = "100_7_ABC.bin".
Proof.
  split; [|split].
  - apply (proj2 (proj2 (proj2 (proj2
             (file_basename_shape Py.ascii_lower 100 7 (mkFile None "ABC") None
                ascii_lower_empty))))).
    intros (raw & [[(a & H & _) _]|(_ & (n & k & H & _) & _)]); discriminate H.
  - refine (proj1 (proj2
              (file_basename_shape Py.ascii_lower 100 7
                 (mkFile (Some "videos/clip.MP4") "ABC") (Some "bin")
                 ascii_lower_empty)) "MP4" _).
    left. split; [|discriminate]. exists "videos/clip". split; reflexivity.
  - refine (proj1 (proj2
              (file_basename_shape Py.ascii_lower 100 7 (mkFile None "ABC")
                 (Some ".Bin") ascii_lower_empty)) "Bin" _).
    right. split; [|split; [|discriminate]].
    + intros b (a & H & _). discriminate H.
    + exists 1%nat, 0%nat. split; [reflexivity|]. split.
      * intros r H. discriminate H.
      * no_such_suffix.
Defined.

Lemma path_extension_precedence_witness :
  resolved_ext Py.ascii_lower (mkFile (Some "videos/clip.MP4") "ABC") (Some "bin")
  = Some "mp4".
Proof.
  exact (proj1 (path_extension_precedence Py.ascii_lower
                  (mkFile (Some "videos/clip.MP4") "ABC") (Some "bin")
                  ascii_lower_nonempty)
               "videos/clip" "MP4" eq_refl eq_refl ltac:(discriminate)).
Defined.

(** C3 as worded fails: the path holds a ["."], yet the text after the last
    one is empty and the supplied fallback decides the extension. *)
Lemma path_extension_not_always_wins :
  Py.contains dot "photos/file." = true /\
  option_map Py.ascii_lower (Py.last_item (Py.rsplit1 dot "photos/file.")) = Some "" /\
  resolved_ext Py.ascii_lower (mkFile (Some "photos/file.") "ABC") (Some "bin")
  = Some "bin" /\
  resolved_ext Py.ascii_lower (mkFile (Some "photos/file.") "ABC") (Some "bin")
  <> option_map Py.ascii_lower (Py.last_item (Py.rsplit1 dot "photos/file.")) /\
  file_basename Py.ascii_lower 100 7 (mkFile (Some "photos/file.") "ABC") (Some "bin")
  = "100_7_ABC.bin" /\
  file_basename Py.ascii_lower 100 7 (mkFile (Some "photos/file.") "ABC") None
  = "100_7_ABC".
Proof. repeat split. discriminate. Qed.

Lemma fallback_ext_strips_both_ends_witness :
  resolved_ext Py.ascii_lower (mkFile None "ABC") (Some ".TaR.Gz..") = Some "tar.gz".
Proof.
  apply (fallback_ext_strips_both_ends Py.ascii_lower (mkFile None "ABC") 1 2 "TaR.Gz").
  - reflexivity.
  - intros r H. discriminate H.
  - no_such_suffix.
  - discriminate.
Defined.

(** C6 as worded fails: with only leading dots stripped the fallback
    ["tar."] would give ["tar."], but the code gives ["tar"]. *)
Lemma fallback_trailing_dot_removed :
  path_ext Py.ascii_lower (mkFile None "ABC") = None /\
  Py.ascii_lower (Py.lstrip dot "tar.") = "tar." /\
  resolved_ext Py.ascii_lower (mkFile None "ABC") (Some "tar.") = Some "tar" /\
  resolved_ext Py.ascii_lower (mkFile None "ABC") (Some "tar.")
  <> Some (Py.ascii_lower (Py.lstrip dot "tar.")) /\
  file_basename Py.ascii_lower 100 7 (mkFile None "ABC") (Some "tar.") = "100_7_ABC.tar".
Proof. repeat split. discriminate. Qed.

Lemma trailing_dot_path_falls_through_witness :
  file_basename Py.ascii_lower 100 7 (mkFile (Some "photos/file.") "ABC") (Some "bin")
  = "100_7_ABC.bin" /\
  file_basename Py.ascii_lower 100 7 (mkFile (Some "photos/file.") "ABC") None
  = "100_7_ABC".
Proof.
  split.
  - exact (proj1 (proj2 (proj2
             (trailing_dot_path_falls_through Py.ascii_lower 100 7 "photos/file" "ABC"
                (Some "bin") eq_refl)))).
  - exact (proj2 (proj2 (proj2
             (trailing_dot_path_falls_through Py.ascii_lower 100 7 "photos/file" "ABC"
                (Some "bin") eq_refl)))).
Defined.


Lemma failed_download_commits_nothing_witness :
  store (snd (backup_message Py.ascii_lower sample_path failing_transfer
                (mkUpdate (Some photo_post)) sample_world))
  = store sample_world /\
  pending (snd (backup_message Py.ascii_lower sample_path failing_transfer
                  (mkUpdate (Some photo_post)) sample_world))
  = empty_session.
Proof.
  apply (failed_download_commits_nothing Py.ascii_lower sample_path failing_transfer
           (mkUpdate (Some photo_post)) photo_post sample_world
           (mkMedium "large") "photo").
  - reflexivity.
  - reflexivity.
  - right. exists (sample_file (mkMedium "large")), network_error.
    split; reflexivity.
Defined.

Lemma handler_never_raises_witness :
  exists w',
    backup_message Py.ascii_lower sample_path failing_transfer
      (mkUpdate (Some photo_post)) sample_world = (Ok tt, w') /\
    log w' = (log sample_world ++ [network_error])%list /\
    store w' = store sample_world.
Proof.
  destruct (handler_never_raises Py.ascii_lower sample_path failing_transfer
              (mkUpdate (Some photo_post)) sample_world)
    as (w' & Hrun & Hraise & _).
  - intros e w1 H. compute in H. injection H as He _. now rewrite <- He.
  - exists w'. split; [exact Hrun|].
    eapply (Hraise network_error). reflexivity.
Defined.

(** C4 as worded fails: a cancellation raised at the first [await] is not
    an [Exception], and the handler lets it through. *)
Lemma handler_raises_on_cancellation :
  exc_is_Exception cancelled = false /\
  get_file cancelling (mkMedium "large") = Raise cancelled /\
  backup_message Py.ascii_lower sample_path cancelling
    (mkUpdate (Some photo_post)) sample_world
  = (Raise cancelled,
     mkWorld (store sample_world) empty_session [GetFile (mkMedium "large")] []).
Proof. repeat split. Qed.

Lemma one_medium_by_priority_witness :
  media (store (snd (backup_message Py.ascii_lower sample_path good_platform
                       (mkUpdate (Some photo_post)) sample_world)))
  = [Media.mk 7 (-1001) "photo" "-1001_7_AQADlarge.jpg"
              "telegram_media_backup/-1001_7_AQADlarge.jpg"].
Proof.
  destruct (one_medium_by_priority Py.ascii_lower sample_path good_platform
              (mkUpdate (Some photo_post)) photo_post sample_world
              (snd (backup_body Py.ascii_lower sample_path good_platform
                      (mkUpdate (Some photo_post)) sample_world))
              eq_refl eq_refl)
    as (Hh & _ & Hsel & _).
  rewrite Hh. cbn [snd].
  cbn [first_match candidates photo_post photo Py.last_item rev app] in Hsel.
  destruct Hsel as (f & Hf & Hmedia).
  rewrite Hmedia. injection Hf as <-. reflexivity.
Defined.

Lemma photo_uses_last_size_witness :
  calls (snd (backup_message Py.ascii_lower sample_path good_platform
                (mkUpdate (Some photo_post)) sample_world))
  = [GetFile (mkMedium "large");
     Download (sample_file (mkMedium "large"))
              "telegram_media_backup/-1001_7_AQADlarge.jpg"].
Proof.
  exact (photo_uses_last_size Py.ascii_lower sample_path good_platform
           (mkUpdate (Some photo_post)) photo_post sample_world
           [mkMedium "small"] (mkMedium "large") eq_refl eq_refl eq_refl).
Defined.

Lemma stored_text_or_caption_witness :
  exists row,
    messages (store (snd (backup_message Py.ascii_lower sample_path good_platform
                            (mkUpdate (Some captioned_photo)) sample_world)))
    = (messages (store sample_world) ++ [row])%list /\
    Message.text row = Some "sunset".
Proof.
  destruct (stored_text_or_caption Py.ascii_lower sample_path good_platform
              (mkUpdate (Some captioned_photo)) captioned_photo sample_world
              (snd (backup_body Py.ascii_lower sample_path good_platform
                      (mkUpdate (Some captioned_photo)) sample_world))
              eq_refl eq_refl)
    as (row & Hm & _ & Hnone & _).
  exists row. split; [exact Hm | exact (Hnone eq_refl)].
Defined.

(** A full run on the sample post: both rows are committed together. *)
Example sample_run :
  backup_message Py.ascii_lower sample_path good_platform
    (mkUpdate (Some photo_post)) (mkWorld (mkStore [] []) empty_session [] [])
  = (Ok tt,
     mkWorld
       (mkStore
          [Message.mk (-1001) (Some 42) (Some "ada") "Ada Lovelace" (Some "hello")
                      1700000000 7 None "supergroup" true]
          [Media.mk 7 (-1001) "photo" "-1001_7_AQADlarge.jpg"
                    "telegram_media_backup/-1001_7_AQADlarge.jpg"])
       empty_session
       [GetFile (mkMedium "large");
        Download (sample_file (mkMedium "large"))
                 "telegram_media_backup/-1001_7_AQADlarge.jpg"]
       []).
Proof. reflexivity. Qed.


(** * Further properties of the code *)

(** ** Decimal numerals and separators *)

Lemma uint_digits_no (c : ascii) (d : Decimal.uint) :
  Py.contains c "0123456789" = false ->
  Py.contains c (NilEmpty.string_of_uint d) = false.
Proof.
  intros Hc. cbn in Hc. repeat (apply orb_false_iff in Hc as [? Hc]).
  induction d; cbn; [reflexivity | rewrite IHd, orb_false_r; assumption ..].
Qed.

Lemma str_of_int_no_underscore (n : Z) : Py.contains "_" (Py.str_of_int n) = false.
Proof.
  assert (Hu : forall d, Py.contains "_" (NilZero.string_of_uint d) = false).
  { intros d. destruct d; try reflexivity; apply (uint_digits_no "_"); reflexivity. }
  unfold Py.str_of_int. destruct (Z.to_int n); cbn; [apply Hu|].
  now rewrite Hu.
Qed.

Lemma str_of_int_inj (n n' : Z) : Py.str_of_int n = Py.str_of_int n' -> n = n'.
Proof.
  unfold Py.str_of_int. intros H. apply DecimalZ.to_int_inj.
  assert (Hnn : forall z, Z.to_int z <> Decimal.Pos Decimal.Nil /\
                          Z.to_int z <> Decimal.Neg Decimal.Nil).
  { intros [|q|q]; cbn; split; try discriminate; intros E; injection E as E;
      now apply DecimalPos.Unsigned.to_uint_nonnil in E. }
  apply (f_equal NilZero.int_of_string) in H.
  rewrite !NilZero.isi in H by apply Hnn.
  now injection H.
Qed.

Lemma app_sep_inj (c : ascii) (a a' r r' : pystr) :
  Py.contains c a = false -> Py.contains c a' = false ->
  a ++ String c r = a' ++ String c r' -> a = a' /\ r = r'.
Proof.
  revert a'. induction a as [|x a IH]; intros [|y a']; cbn; intros Ha Ha' H.
  - injection H as <-. auto.
  - injection H as -> _. now rewrite Ascii.eqb_refl in Ha'.
  - injection H as -> _. now rewrite Ascii.eqb_refl in Ha.
  - injection H as -> H.
    apply orb_false_iff in Ha as [_ Ha]. apply orb_false_iff in Ha' as [_ Ha'].
    destruct (IH a' Ha Ha' H) as [-> ->]. auto.
Qed.

(** ** More on the filename builder *)

Section FilenameBuilderMore.

Variable lower : pystr -> pystr.

(** X1.  Names built for different chats or for different messages are
    different, whatever the files and extensions. *)
Theorem file_basename_separates_messages
        (c m c' m' : Z) (f f' : File) (fb fb' : option pystr) :
  c <> c' \/ m <> m' ->
  file_basename lower c m f fb <> file_basename lower c' m' f' fb'.
Proof.
  intros Hdiff H. unfold file_basename in H. cbv zeta in H.
  change ("_" ++ ?x) with (String "_"%char x) in H.
  apply app_sep_inj in H as [Hc H]; try apply str_of_int_no_underscore.
  change (String "_"%char (?a ++ String "_"%char ?b))
    with (String "_"%char (a ++ String "_"%char b)) in H.
  apply app_sep_inj in H as [Hm _]; try apply str_of_int_no_underscore.
  apply str_of_int_inj in Hc, Hm. tauto.
Qed.

(** X2.  The name carries no extension exactly when the remote path has no
    non-empty text after a last ["."] and the fallback is missing or made
    of dots only. *)
Theorem file_basename_bare_iff (c m : Z) (f : File) (fb : option pystr) :
  (forall s, lower s = "" <-> s = "") ->
  file_basename lower c m f fb = name_prefix c m f <->
  (forall a b, file_path f = Some (a ++ "." ++ b) ->
               Py.contains dot b = false -> b = "") /\
  (forall e, fb = Some e -> exists n, e = Py.replicate n dot).
Proof.
  intros Hlow.
  rewrite <- (path_ext_falsy_iff lower f Hlow), file_basename_split.
  rewrite <- (append_empty_r (name_prefix c m f)) at 2.
  split.
  - intros H. apply append_same_prefix, suffix_empty_iff in H.
    revert H. unfold resolved_ext.
    destruct (Py.truthy_opt (path_ext lower f)) eqn:Hp; cbn [negb andb].
    + congruence.
    + destruct fb as [e|]; cbn.
      * destruct (Py.truthy e) eqn:He; cbn.
        -- intros H. apply truthy_false_iff, Hlow, strip_empty_iff in H.
           split; [reflexivity|]. intros e' E. now injection E as <-.
        -- intros _. split; [reflexivity|]. intros e' E. injection E as <-.
           apply truthy_false_iff in He. subst e. now exists O.
      * intros _. split; [reflexivity | discriminate].
  - intros [Hp Hfb]. f_equal. apply suffix_empty_iff.
    unfold resolved_ext. rewrite Hp. cbn [negb andb].
    destruct fb as [e|]; cbn; [|exact Hp].
    destruct (Py.truthy e) eqn:He; cbn; [|exact Hp].
    apply truthy_false_iff, Hlow, strip_empty_iff. now apply Hfb.
Qed.

End FilenameBuilderMore.

(** X3.  The full name is empty exactly when neither name is a non-empty
    string. *)
Theorem safe_full_name_empty_iff (first last : option pystr) :
  safe_full_name first last = "" <->
  Py.truthy_opt first = false /\ Py.truthy_opt last = false.
Proof.
  unfold safe_full_name, Py.join.
  destruct first as [[|x f]|], last as [[|y l]|]; cbn;
    split; try tauto; try discriminate; intros [? ?]; discriminate.
Qed.

(** ** More on the handler *)

Ltac body_cases lower media_path env update msg w Hmsg :=
  rewrite (backup_body_run lower media_path env update msg w Hmsg); cbv zeta;
  destruct (flush env (store w) _) as [[]|] eqn:?;
  [ destruct (first_match (candidates msg)) as [[? ?]|] eqn:?;
    [ destruct (get_file env _) as [|] eqn:?;
      [ destruct (download_to_drive env _ _) as [[]|] eqn:?;
        [ destruct (commit env (store w) _) as [[]|] eqn:? | ] | ]
    | destruct (commit env (store w) _) as [[]|] eqn:? ] | ].

Section HandlerMore.

Variable lower : pystr -> pystr.
Variable media_path : pystr -> pystr.
Variable env : Platform.

Local Abbreviation body := (backup_body lower media_path env).
Local Abbreviation handler := (backup_message lower media_path env).
Local Abbreviation built_name msg f :=
  (file_basename lower (chat_id (chat msg)) (message_id msg) f None).

Lemma handler_without_message (update : Update) (w : World) :
  effective_message update = None -> handler update w = (Ok tt, w).
Proof.
  intros H. unfold backup_message, try_except_Exception, backup_body.
  now rewrite H.
Qed.

(** One call extends the tables by at most one row each, a [Media] row
    only beside its [Message] row, and keeps every [Media] row owned. *)
Lemma handler_step (update : Update) (w : World) :
  exists ms md,
    messages (store (snd (handler update w))) = (messages (store w) ++ ms)%list /\
    media (store (snd (handler update w))) = (media (store w) ++ md)%list /\
    (List.length md <= List.length ms <= 1)%nat /\
    (forall r, In r md ->
       exists m, In m ms /\ Message.chat_id m = Media.chat_id r /\
                 Message.message_id m = Media.message_id r).
Proof.
  destruct (effective_message update) as [msg|] eqn:Hmsg.
  - unfold backup_message, try_except_Exception.
    body_cases lower media_path env update msg w Hmsg;
      try (exists [], []; cbn; rewrite !app_nil_r;
           repeat split; try lia; try contradiction;
           match goal with |- context [exc_is_Exception ?e] =>
                             destruct (exc_is_Exception e) end;
           cbn; repeat split; reflexivity).
    + eexists [_], [_]. cbn. repeat split; try lia.
      intros r [<-|[]]. eexists. split; [left; reflexivity|]. cbn. auto.
    + exists [message_row msg], []. cbn. rewrite app_nil_r.
      repeat split; try lia; try contradiction.
  - rewrite (handler_without_message update w Hmsg). exists [], []. cbn.
    rewrite !app_nil_r. repeat split; try lia; try contradiction.
Qed.

(** X5.  One call makes at most two requests to the platform: none, or one
    [get_file] that failed, or one [get_file] followed by the transfer of
    the file it answered; an update without a message leaves the world
    untouched and a message without attachment makes no request. *)
Theorem handler_requests_bounded (update : Update) (w : World) :
  (calls (snd (handler update w)) = calls w \/
   (exists x e, get_file env x = Raise e /\
                calls (snd (handler update w)) = (calls w ++ [GetFile x])%list) \/
   (exists x f p, get_file env x = Ok f /\
                  calls (snd (handler update w))
                  = (calls w ++ [GetFile x; Download f p])%list)) /\
  (effective_message update = None -> handler update w = (Ok tt, w)) /\
  (forall msg, effective_message update = Some msg ->
               first_match (candidates msg) = None ->
               calls (snd (handler update w)) = calls w).
Proof.
  split; [|split; [apply handler_without_message|]].
  - destruct (effective_message update) as [msg|] eqn:Hmsg.
    + unfold backup_message, try_except_Exception.
      body_cases lower media_path env update msg w Hmsg;
        rewrite <- ?app_assoc; cbn [app];
        try match goal with |- context [exc_is_Exception ?e] =>
                              destruct (exc_is_Exception e) end;
        cbn; eauto 8.
    + rewrite (handler_without_message update w Hmsg). auto.
  - intros msg Hmsg Hnone. unfold backup_message, try_except_Exception.
    body_cases lower media_path env update msg w Hmsg; try discriminate;
      try match goal with |- context [exc_is_Exception ?e] =>
                            destruct (exc_is_Exception e) end;
      reflexivity.
Qed.

(** X6.  One call never changes or removes a committed row: each table
    keeps its rows and gains at most one, and a [Media] row is added only
    together with a [Message] row. *)
Theorem store_append_only (update : Update) (w : World) :
  exists ms md,
    messages (store (snd (handler update w))) = (messages (store w) ++ ms)%list /\
    media (store (snd (handler update w))) = (media (store w) ++ md)%list /\
    (List.length md <= List.length ms <= 1)%nat.
Proof.
  destruct (handler_step update w) as (ms & md & Hm & Hd & Hlen & _). eauto.
Qed.

Lemma handler_keeps_owned (update : Update) (w : World) :
  media_owned (store w) -> media_owned (store (snd (handler update w))).
Proof.
  intros Ho. destruct (handler_step update w) as (ms & md & Hm & Hd & _ & Hnew).
  intros r Hr. rewrite Hd in Hr. rewrite Hm. apply in_app_or in Hr as [Hr|Hr].
  - destruct (Ho r Hr) as (m & Hin & H). exists m. split; [|exact H].
    apply in_or_app. now left.
  - destruct (Hnew r Hr) as (m & Hin & H). exists m. split; [|exact H].
    apply in_or_app. now right.
Qed.

(** X7.  If every [Media] row of the store has a [Message] row with the
    same chat and message identifiers, this still holds after a call. *)
Theorem media_owned_preserved (update : Update) (w : World) :
  media_owned (store w) -> media_owned (store (snd (handler update w))).
Proof. apply handler_keeps_owned. Qed.

(** X8.  When staging the [Message] row fails, the handler asks the
    platform for nothing and commits nothing; the error, if an
    [Exception], is logged. *)
Theorem flush_failure_stops_early
        (update : Update) (msg : TgMessage) (w : World) (e : PyExc) :
  effective_message update = Some msg ->
  flush env (store w) (mkSession [message_row msg] []) = Raise e ->
  calls (snd (handler update w)) = calls w /\
  store (snd (handler update w)) = store w /\
  (exc_is_Exception e = true ->
   log (snd (handler update w)) = (log w ++ [e])%list).
Proof.
  intros Hmsg Hfl. unfold backup_message, try_except_Exception.
  rewrite (backup_body_run lower media_path env update msg w Hmsg). cbv zeta.
  rewrite Hfl. destruct (exc_is_Exception e); cbn; repeat split; auto; discriminate.
Qed.

(** X9.  When the commit fails after a successful transfer, the file has
    been fetched but neither row is committed: the handler returns with
    the store as before, both requests made and the error logged. *)
Theorem commit_failure_after_download
        (update : Update) (msg : TgMessage) (w : World)
        (x : Medium) (kind : pystr) (f : File) (e : PyExc) :
  effective_message update = Some msg ->
  flush env (store w) (mkSession [message_row msg] []) = Ok tt ->
  first_match (candidates msg) = Some (x, kind) ->
  get_file env x = Ok f ->
  download_to_drive env f (media_path (built_name msg f)) = Ok tt ->
  commit env (store w)
         (mkSession [message_row msg]
                    [Media.mk (message_id msg) (chat_id (chat msg)) kind
                              (built_name msg f) (media_path (built_name msg f))])
  = Raise e ->
  exc_is_Exception e = true ->
  handler update w
  = (Ok tt,
     mkWorld (store w) empty_session
             (calls w ++ [GetFile x; Download f (media_path (built_name msg f))])
             (log w ++ [e])).
Proof.
  intros Hmsg Hfl Hsel Hg Hd Hc He. unfold backup_message, try_except_Exception.
  rewrite (backup_body_run lower media_path env update msg w Hmsg). cbv zeta.
  rewrite Hfl, Hsel, Hg, Hd, Hc, He. cbn. now rewrite <- app_assoc.
Qed.

(** X10.  When the database and the platform answer every step of an event
    with an attachment, the handler commits the [Message] row and the
    [Media] row together, logs nothing and closes the session. *)
Theorem clean_run_commits_both
        (update : Update) (msg : TgMessage) (w : World)
        (x : Medium) (kind : pystr) (f : File) :
  effective_message update = Some msg ->
  flush env (store w) (mkSession [message_row msg] []) = Ok tt ->
  first_match (candidates msg) = Some (x, kind) ->
  get_file env x = Ok f ->
  download_to_drive env f (media_path (built_name msg f)) = Ok tt ->
  commit env (store w)
         (mkSession [message_row msg]
                    [Media.mk (message_id msg) (chat_id (chat msg)) kind
                              (built_name msg f) (media_path (built_name msg f))])
  = Ok tt ->
  handler update w
  = (Ok tt,
     mkWorld
       (mkStore (messages (store w) ++ [message_row msg])
                (media (store w)
                   ++ [Media.mk (message_id msg) (chat_id (chat msg)) kind
                                (built_name msg f) (media_path (built_name msg f))]))
       empty_session
       (calls w ++ [GetFile x; Download f (media_path (built_name msg f))])
       (log w)).
Proof.
  intros Hmsg Hfl Hsel Hg Hd Hc. unfold backup_message, try_except_Exception.
  rewrite (backup_body_run lower media_path env update msg w Hmsg). cbv zeta.
  rewrite Hfl, Hsel, Hg, Hd, Hc. cbn. now rewrite <- app_assoc.
Qed.

(** X11.  An event with no attachment of a known kind reaches the commit
    without any request to the platform and adds its [Message] row
    alone. *)
Theorem text_only_run_commits
        (update : Update) (msg : TgMessage) (w : World) :
  effective_message update = Some msg ->
  first_match (candidates msg) = None ->
  flush env (store w) (mkSession [message_row msg] []) = Ok tt ->
  commit env (store w) (mkSession [message_row msg] []) = Ok tt ->
  handler update w
  = (Ok tt,
     mkWorld (mkStore (messages (store w) ++ [message_row msg]) (media (store w)))
             empty_session (calls w) (log w)).
Proof.
  intros Hmsg Hsel Hfl Hc. unfold backup_message, try_except_Exception.
  rewrite (backup_body_run lower media_path env update msg w Hmsg). cbv zeta.
  rewrite Hfl, Hsel, Hc. cbn. now rewrite app_nil_r.
Qed.

(** X12.  With collaborators that raise only [Exception]s, an event that
    carries a message is either archived, with nothing logged, or leaves
    the store as it was with exactly one error logged. *)
Theorem archived_or_logged (update : Update) (msg : TgMessage) (w : World) :
  raises_only_Exception env ->
  effective_message update = Some msg ->
  (messages (store (snd (handler update w)))
   = (messages (store w) ++ [message_row msg])%list /\
   log (snd (handler update w)) = log w) \/
  (store (snd (handler update w)) = store w /\
   exists e, log (snd (handler update w)) = (log w ++ [e])%list).
Proof.
  intros (Hg & Hd & Hf & Hc) Hmsg. unfold backup_message, try_except_Exception.
  body_cases lower media_path env update msg w Hmsg;
    try (left; split; reflexivity);
    right;
    match goal with
    | H : get_file env _ = Raise ?e |- _ => rewrite (Hg _ _ H)
    | H : download_to_drive env _ _ = Raise ?e |- _ => rewrite (Hd _ _ _ H)
    | H : flush env _ _ = Raise ?e |- _ => rewrite (Hf _ _ _ H)
    | H : commit env _ _ = Raise ?e |- _ => rewrite (Hc _ _ _ H)
    end; cbn; eauto.
Qed.

(** X13.  An error of the body that is not an [Exception] leaves the
    handler as it is, unlogged, with nothing committed. *)
Theorem non_Exception_propagates (update : Update) (w w1 : World) (e : PyExc) :
  body update w = (Raise e, w1) ->
  exc_is_Exception e = false ->
  handler update w = (Raise e, w1) /\ log w1 = log w /\ store w1 = store w.
Proof.
  intros Hrun He. destruct (body_raise_origin _ _ _ _ _ _ _ Hrun) as (_ & Hst & Hlog & _).
  unfold backup_message, try_except_Exception. now rewrite Hrun, He.
Qed.

(** X14.  Whatever happens to an event that carries a message, the session
    it opened is empty afterwards: no staged row outlives the call. *)
Theorem session_always_closed (update : Update) (msg : TgMessage) (w : World) :
  effective_message update = Some msg ->
  pending (snd (handler update w)) = empty_session.
Proof.
  intros Hmsg. unfold backup_message, try_except_Exception.
  body_cases lower media_path env update msg w Hmsg;
    try match goal with |- context [exc_is_Exception ?e] =>
                          destruct (exc_is_Exception e) end;
    reflexivity.
Qed.

End HandlerMore.

(** X15.  In the row built for an event, [is_group] holds exactly for the
    chat types ["group"] and ["supergroup"]; an event without sender gets
    no user id, no username and the empty full name; the reply id is that
    of the message replied to, if any. *)
Theorem message_row_derived_fields (msg : TgMessage) :
  (Message.is_group (message_row msg) = true <->
   chat_type (chat msg) = "group" \/ chat_type (chat msg) = "supergroup") /\
  (from_user msg = None ->
   Message.user_id (message_row msg) = None /\
   Message.username (message_row msg) = None /\
   Message.full_name (message_row msg) = "") /\
  (forall u, from_user msg = Some u ->
             Message.user_id (message_row msg) = Some (user_id u) /\
             Message.full_name (message_row msg)
             = safe_full_name (first_name u) (last_name u)) /\
  (reply_to_message msg = None -> Message.reply_to_message_id (message_row msg) = None) /\
  (forall r, reply_to_message msg = Some r ->
             Message.reply_to_message_id (message_row msg) = Some (message_id r)).
Proof.
  unfold message_row. cbn [Message.is_group Message.user_id Message.username
                           Message.full_name Message.reply_to_message_id].
  split; [|split; [|split; [|split]]].
  - split.
    + intros H. apply orb_true_iff in H as [H|H]; apply String.eqb_eq in H; auto.
    + intros [H|H]; rewrite H; reflexivity.
  - intros ->. auto.
  - intros u ->. auto.
  - intros ->. reflexivity.
  - intros r ->. reflexivity.
Qed.

(** ** Successive events *)

Lemma clean_step (lower media_path : pystr -> pystr) (env : Platform)
      (update : Update) (w : World) :
  never_fails env ->
  exists w',
    backup_message lower media_path env update w = (Ok tt, w') /\
    messages (store w') = (messages (store w) ++ rows_of [(env, update)])%list /\
    List.length (media (store w'))
    = (List.length (media (store w)) + attachments_in [(env, update)])%nat /\
    log w' = log w.
Proof.
  intros (Hg & Hd & Hf & Hc).
  unfold rows_of, attachments_in. cbn [flat_map filter snd].
  destruct (effective_message update) as [msg|] eqn:Hmsg.
  - unfold backup_message, try_except_Exception.
    body_cases lower media_path env update msg w Hmsg;
      try match goal with
          | H : get_file env ?x = Raise _ |- _ =>
              destruct (Hg x) as [? ?]; congruence
          | H : download_to_drive env ?f ?p = Raise _ |- _ =>
              rewrite (Hd f p) in H; discriminate
          | H : flush env ?a ?b = Raise _ |- _ =>
              rewrite (Hf a b) in H; discriminate
          | H : commit env ?a ?b = Raise _ |- _ =>
              rewrite (Hc a b) in H; discriminate
          end;
      eexists; (split; [reflexivity|]); cbn; rewrite ?app_nil_r, ?length_app; cbn;
      repeat split; lia.
  - rewrite (handler_without_message lower media_path env update w Hmsg).
    exists w. cbn. rewrite app_nil_r. repeat split; lia.
Qed.

Lemma rows_of_cons (ev : Platform * Update) (events : list (Platform * Update)) :
  rows_of (ev :: events) = (rows_of [ev] ++ rows_of events)%list.
Proof. unfold rows_of. cbn. now rewrite app_nil_r. Qed.

Lemma attachments_in_cons (ev : Platform * Update) (events : list (Platform * Update)) :
  attachments_in (ev :: events) = (attachments_in [ev] + attachments_in events)%nat.
Proof.
  unfold attachments_in.
  match goal with |- context [filter ?k (ev :: events)] => set (keep := k) end.
  cbn [filter]. destruct (keep ev); reflexivity.
Qed.

(** X16.  Over any run of events, with any answers of the collaborators,
    the committed rows are only added to, there are never more new [Media]
    rows than new [Message] rows nor more new [Message] rows than events,
    and every [Media] row keeps a [Message] row with its identifiers. *)
Theorem deliver_keeps_tables_consistent
        (lower media_path : pystr -> pystr)
        (events : list (Platform * Update)) (w : World) :
  media_owned (store w) ->
  media_owned (store (snd (deliver lower media_path events w))) /\
  exists ms md,
    messages (store (snd (deliver lower media_path events w)))
    = (messages (store w) ++ ms)%list /\
    media (store (snd (deliver lower media_path events w)))
    = (media (store w) ++ md)%list /\
    (List.length md <= List.length ms <= List.length events)%nat.
Proof.
  revert w. induction events as [|[env update] events IH]; intros w Ho.
  - cbn. split; [exact Ho|]. exists [], []. rewrite !app_nil_r. cbn. auto.
  - pose proof (handler_keeps_owned lower media_path env update w Ho) as Ho1.
    destruct (handler_step lower media_path env update w)
      as (ms1 & md1 & Hm1 & Hd1 & Hlen1 & _).
    cbn [deliver].
    destruct (backup_message lower media_path env update w) as [[[]|e] w1].
    + cbn [snd] in Ho1, Hm1, Hd1.
      destruct (IH w1 Ho1) as (Ho2 & ms2 & md2 & Hm2 & Hd2 & Hlen2).
      split; [exact Ho2|]. exists (ms1 ++ ms2)%list, (md1 ++ md2)%list.
      rewrite Hm2, Hd2, Hm1, Hd1, <- !app_assoc, !length_app. cbn.
      repeat split; lia.
    + cbn [snd] in *. split; [exact Ho1|]. exists ms1, md1.
      repeat split; auto; cbn; lia.
Qed.

(** X17.  When the collaborators answer every request, a run of events
    never stops, logs nothing, archives one [Message] row per event that
    carries a message, in arrival order, and one [Media] row per event
    that carries an attachment. *)
Theorem deliver_clean_archives_all
        (lower media_path : pystr -> pystr)
        (events : list (Platform * Update)) (w : World) :
  (forall ev, In ev events -> never_fails (fst ev)) ->
  exists w',
    deliver lower media_path events w = (Ok tt, w') /\
    messages (store w') = (messages (store w) ++ rows_of events)%list /\
    List.length (media (store w'))
    = (List.length (media (store w)) + attachments_in events)%nat /\
    log w' = log w.
Proof.
  revert w. induction events as [|[env update] events IH]; intros w Hall.
  - exists w. cbn. rewrite app_nil_r. repeat split; lia.
  - destruct (clean_step lower media_path env update w (Hall (env, update) (or_introl eq_refl)))
      as (w1 & Hrun & Hm1 & Hd1 & Hl1).
    destruct (IH w1 (fun ev H => Hall ev (or_intror H)))
      as (w2 & Hrun2 & Hm2 & Hd2 & Hl2).
    exists w2. cbn [deliver]. rewrite Hrun.
    split; [exact Hrun2|].
    rewrite rows_of_cons, attachments_in_cons, Hm2, Hd2, Hl2, Hm1, Hd1, Hl1.
    rewrite <- app_assoc. repeat split; lia.
Qed.

(** ** The further properties at sample inputs *)

Lemma good_platform_never_fails : never_fails good_platform.
Proof.
  repeat split; intros; try reflexivity. eexists. reflexivity.
Qed.

Lemma sample_world_owned : media_owned (store sample_world).
Proof. intros md []. Qed.

Lemma file_basename_separates_messages_witness :
  (100 <> 101 \/ 7 <> 7) /\
  file_basename Py.ascii_lower 100 7 (mkFile None "ABC") None
  <> file_basename Py.ascii_lower 101 7 (mkFile None "ABC") None.
Proof.
  split; [left; discriminate|].
  apply (file_basename_separates_messages Py.ascii_lower 100 7 101 7).
  left. discriminate.
Defined.

Lemma file_basename_bare_iff_witness :
  file_basename Py.ascii_lower 100 7 (mkFile None "ABC") (Some "...")
  = name_prefix 100 7 (mkFile None "ABC").
Proof.
  apply (proj2 (file_basename_bare_iff Py.ascii_lower 100 7 (mkFile None "ABC")
                  (Some "...") ascii_lower_empty)).
  split.
  - discriminate.
  - intros e E. injection E as <-. exists 3%nat. reflexivity.
Defined.

Lemma media_owned_preserved_witness :
  media_owned (store (snd (backup_message Py.ascii_lower sample_path good_platform
                             (mkUpdate (Some photo_post)) sample_world))).
Proof.
  apply (media_owned_preserved Py.ascii_lower sample_path good_platform
           (mkUpdate (Some photo_post)) sample_world).
  exact sample_world_owned.
Defined.

Lemma flush_failure_stops_early_witness :
  calls (snd (backup_message Py.ascii_lower sample_path failing_flush
                (mkUpdate (Some photo_post)) sample_world))
  = calls sample_world /\
  store (snd (backup_message Py.ascii_lower sample_path failing_flush
                (mkUpdate (Some photo_post)) sample_world))
  = store sample_world /\
  log (snd (backup_message Py.ascii_lower sample_path failing_flush
              (mkUpdate (Some photo_post)) sample_world))
  = (log sample_world ++ [database_error])%list.
Proof.
  destruct (flush_failure_stops_early Py.ascii_lower sample_path failing_flush
              (mkUpdate (Some photo_post)) photo_post sample_world database_error
              eq_refl eq_refl) as (Hc & Hs & Hl).
  split; [exact Hc|]. split; [exact Hs | exact (Hl eq_refl)].
Defined.

Lemma commit_failure_after_download_witness :
  backup_message Py.ascii_lower sample_path failing_commit
    (mkUpdate (Some photo_post)) sample_world
  = (Ok tt,
     mkWorld (store sample_world) empty_session
             [GetFile (mkMedium "large");
              Download (sample_file (mkMedium "large"))
                       "telegram_media_backup/-1001_7_AQADlarge.jpg"]
             [database_error]).
Proof.
  exact (commit_failure_after_download Py.ascii_lower sample_path failing_commit
           (mkUpdate (Some photo_post)) photo_post sample_world
           (mkMedium "large") "photo" (sample_file (mkMedium "large")) database_error
           eq_refl eq_refl eq_refl eq_refl eq_refl eq_refl eq_refl).
Defined.

Lemma clean_run_commits_both_witness :
  backup_message Py.ascii_lower sample_path good_platform
    (mkUpdate (Some photo_post)) sample_world
  = (Ok tt,
     mkWorld
       (mkStore [message_row captioned_photo; message_row photo_post]
                [Media.mk 7 (-1001) "photo" "-1001_7_AQADlarge.jpg"
                          "telegram_media_backup/-1001_7_AQADlarge.jpg"])
       empty_session
       [GetFile (mkMedium "large");
        Download (sample_file (mkMedium "large"))
                 "telegram_media_backup/-1001_7_AQADlarge.jpg"]
       []).
Proof.
  exact (clean_run_commits_both Py.ascii_lower sample_path good_platform
           (mkUpdate (Some photo_post)) photo_post sample_world
           (mkMedium "large") "photo" (sample_file (mkMedium "large"))
           eq_refl eq_refl eq_refl eq_refl eq_refl eq_refl).
Defined.

Lemma text_only_run_commits_witness :
  backup_message Py.ascii_lower sample_path good_platform
    (mkUpdate (Some text_only)) sample_world
  = (Ok tt,
     mkWorld (mkStore [message_row captioned_photo; message_row text_only] [])
             empty_session [] []).
Proof.
  exact (text_only_run_commits Py.ascii_lower sample_path good_platform
           (mkUpdate (Some text_only)) text_only sample_world
           eq_refl eq_refl eq_refl eq_refl).
Defined.

Lemma archived_or_logged_witness :
  (messages (store (snd (backup_message Py.ascii_lower sample_path failing_transfer
                           (mkUpdate (Some photo_post)) sample_world)))
   = (messages (store sample_world) ++ [message_row photo_post])%list /\
   log (snd (backup_message Py.ascii_lower sample_path failing_transfer
               (mkUpdate (Some photo_post)) sample_world))
   = log sample_world) \/
  (store (snd (backup_message Py.ascii_lower sample_path failing_transfer
                 (mkUpdate (Some photo_post)) sample_world))
   = store sample_world /\
   exists e,
     log (snd (backup_message Py.ascii_lower sample_path failing_transfer
                 (mkUpdate (Some photo_post)) sample_world))
     = (log sample_world ++ [e])%list).
Proof.
  exact (archived_or_logged Py.ascii_lower sample_path failing_transfer
           (mkUpdate (Some photo_post)) photo_post sample_world
           failing_transfer_raises_only_Exception eq_refl).
Defined.

Lemma non_Exception_propagates_witness :
  backup_message Py.ascii_lower sample_path cancelling
    (mkUpdate (Some photo_post)) sample_world
  = (Raise cancelled,
     mkWorld (store sample_world) empty_session [GetFile (mkMedium "large")] []).
Proof.
  exact (proj1 (non_Exception_propagates Py.ascii_lower sample_path cancelling
                  (mkUpdate (Some photo_post)) sample_world
                  (mkWorld (store sample_world) empty_session
                           [GetFile (mkMedium "large")] [])
                  cancelled eq_refl eq_refl)).
Defined.

Lemma session_always_closed_witness :
  pending (snd (backup_message Py.ascii_lower sample_path failing_transfer
                  (mkUpdate (Some photo_post)) sample_world))
  = empty_session.
Proof.
  exact (session_always_closed Py.ascii_lower sample_path failing_transfer
           (mkUpdate (Some photo_post)) photo_post sample_world eq_refl).
Defined.

Lemma deliver_keeps_tables_consistent_witness :
  media_owned
    (store (snd (deliver Py.ascii_lower sample_path
                   [(good_platform, mkUpdate (Some photo_post));
                    (failing_transfer, mkUpdate (Some captioned_photo));
                    (good_platform, mkUpdate None)]
                   sample_world))).
Proof.
  exact (proj1 (deliver_keeps_tables_consistent Py.ascii_lower sample_path
                  [(good_platform, mkUpdate (Some photo_post));
                   (failing_transfer, mkUpdate (Some captioned_photo));
                   (good_platform, mkUpdate None)]
                  sample_world sample_world_owned)).
Defined.

Lemma deliver_clean_archives_all_witness :
  exists w',
    deliver Py.ascii_lower sample_path
      [(good_platform, mkUpdate (Some photo_post));
       (good_platform, mkUpdate (Some text_only));
       (good_platform, mkUpdate (Some photo_post))]
      sample_world = (Ok tt, w') /\
    messages (store w')
    = [message_row captioned_photo; message_row photo_post;
       message_row text_only; message_row photo_post] /\
    List.length (media (store w')) = 2%nat /\
    log w' = [].
Proof.
  apply (deliver_clean_archives_all Py.ascii_lower sample_path
           [(good_platform, mkUpdate (Some photo_post));
            (good_platform, mkUpdate (Some text_only));
            (good_platform, mkUpdate (Some photo_post))]
           sample_world).
  intros ev [<-|[<-|[<-|[]]]]; exact good_platform_never_fails.
Defined.
